(** * BOUN course scraper: the row parsers and the record assembly

    A shallow embedding of [boun_course_scraper.py].  The browser is the
    only collaborator of the program; what it hands to the Python code (the
    rendered text of a table cell, the texts of the [span] children of a
    cell, the rows of a department page, the answers to the calls that open
    a session or look an element up) is plain data here, so every function
    below is executable.

    Texts are [string]s whose characters are read as the code points
    U+0000 .. U+00FF. *)

From Stdlib Require Import ZArith NArith Ascii String List Bool Lia.
From Stdlib Require Import DecimalString DecimalNat.
From stdpp Require Import base gmap strings list fin_maps sorting.

Local Open Scope string_scope.

(** ** Python exceptions and results *)

Inductive exn : Type :=
| ValueError
| TypeError
| KeyError (key : string)
| EOFError
| WebDriverException
| NoSuchElementException
| UnexpectedTagNameException.

Inductive result (A : Type) : Type :=
| Ok (a : A)
| Raise (e : exn).
Arguments Ok {A} a.
Arguments Raise {A} e.

Definition exn_eqb (e1 e2 : exn) : bool :=
  match e1, e2 with
  | ValueError, ValueError | TypeError, TypeError | EOFError, EOFError
  | WebDriverException, WebDriverException
  | NoSuchElementException, NoSuchElementException
  | UnexpectedTagNameException, UnexpectedTagNameException => true
  | KeyError _, KeyError _ => true
  | _, _ => false
  end.

(** [try: body  except (classes): handler]; [KeyError k] belongs to the
    class [KeyError] whatever [k] is. *)
Definition try_except {A} (body : result A) (classes : list exn)
    (handler : result A) : result A :=
  match body with
  | Ok a => Ok a
  | Raise e => if existsb (exn_eqb e) classes then handler else Raise e
  end.

(** ** Statements *)

(** A statement changes a state and returns or raises; the state reached
    when an exception leaves a statement is kept, as Python objects are
    changed in place. *)
Definition prog (S A : Type) : Type := S -> S * result A.

Definition ret {S A} (a : A) : prog S A := fun st => (st, Ok a).

Definition raise {S A} (e : exn) : prog S A := fun st => (st, Raise e).

Definition lift {S A} (r : result A) : prog S A := fun st => (st, r).

Definition bind {S A B} (m : prog S A) (k : A -> prog S B) : prog S B :=
  fun st =>
    match m st with
    | (st', Ok a) => k a st'
    | (st', Raise e) => (st', Raise e)
    end.

Notation "x <- m ;; k" := (bind m (fun x => k))
  (at level 100, m at next level, right associativity).
Notation "m ;;; k" := (bind m (fun _ => k))
  (at level 100, right associativity).

Definition when {S} (b : bool) (m : prog S unit) : prog S unit :=
  if b then m else ret tt.

(** [try: body  finally: cleanup] *)
Definition try_finally {S A} (body : prog S A) (cleanup : prog S unit)
    : prog S A :=
  fun st =>
    let (st', r) := body st in
    match cleanup st' with
    | (st'', Ok _) => (st'', r)
    | (st'', Raise e) => (st'', Raise e)
    end.

(** ** The string methods the scraper calls *)

Module PyStr.

Definition code (c : ascii) : N := N_of_ascii c.

Definition in_range (lo hi : N) (c : ascii) : bool :=
  ((lo <=? code c) && (code c <=? hi))%N.

(** [str.isspace] on one character below U+0100. *)
Definition isspace (c : ascii) : bool :=
  in_range 9 13 c || in_range 28 32 c
  || (code c =? 133)%N || (code c =? 160)%N.

Fixpoint lstrip (s : string) : string :=
  match s with
  | EmptyString => EmptyString
  | String c s' => if isspace c then lstrip s' else s
  end.

Fixpoint rstrip (s : string) : string :=
  match s with
  | EmptyString => EmptyString
  | String c s' =>
      match rstrip s' with
      | EmptyString => if isspace c then EmptyString else String c EmptyString
      | r => String c r
      end
  end.

(** [s.strip()] *)
Definition strip (s : string) : string := rstrip (lstrip s).

(** Python truth value of a string: [not s] is [negb (truthy s)]. *)
Definition truthy (s : string) : bool :=
  match s with EmptyString => false | String _ _ => true end.

Fixpoint startswith (p s : string) : bool :=
  match p, s with
  | EmptyString, _ => true
  | String a p', String b s' => Ascii.eqb a b && startswith p' s'
  | String _ _, EmptyString => false
  end.

(** [sub in s] *)
Fixpoint contains (sub s : string) : bool :=
  startswith sub s
  || match s with
     | EmptyString => false
     | String _ s' => contains sub s'
     end.

(** [s.replace(old, new)] for a non-empty [old]: occurrences are found
    left to right and do not overlap; [skip] counts the characters of
    the occurrence just replaced that are still to be passed over. *)
Fixpoint replace_from (skip : nat) (old new s : string) : string :=
  match s with
  | EmptyString => EmptyString
  | String c s' =>
      match skip with
      | S k => replace_from k old new s'
      | O =>
          if startswith old s
          then new ++ replace_from (String.length old - 1) old new s'
          else String c (replace_from 0 old new s')
      end
  end.

Definition replace (old new s : string) : string := replace_from 0 old new s.

(** [s.split(sep)] for a one-character separator. *)
Fixpoint split (sep : ascii) (s : string) : list string :=
  match s with
  | EmptyString => [EmptyString]
  | String c s' =>
      if Ascii.eqb c sep then EmptyString :: split sep s'
      else match split sep s' with
           | h :: t => String c h :: t
           | [] => [String c EmptyString]
           end
  end.

(** [str.upper] on one character below U+0100.  The capital of U+00DF
    is the two letters SS; the capitals of U+00B5 and U+00FF lie above
    U+00FF and are not letters of any text searched for here, so these
    two characters stay in place. *)
Definition upper_char (c : ascii) : string :=
  if in_range 97 122 c then String (ascii_of_N (code c - 32)) EmptyString
  else if (code c =? 223)%N then "SS"
  else if in_range 224 254 c && negb (code c =? 247)%N
       then String (ascii_of_N (code c - 32)) EmptyString
  else String c EmptyString.

Fixpoint upper (s : string) : string :=
  match s with
  | EmptyString => EmptyString
  | String c s' => upper_char c ++ upper s'
  end.

End PyStr.

(** ** The part of [re] that the two patterns use *)

Module PyRe.

Inductive regex : Type :=
| Lit (s : string)
| Range (lo hi : ascii)
| Alt (r1 r2 : regex).

(** The text matched at the start of [s], if any.  An alternation takes
    its first branch that matches, as [re] does when nothing follows the
    group. *)
Fixpoint match_prefix (r : regex) (s : string) : option string :=
  match r with
  | Lit l => if PyStr.startswith l s then Some l else None
  | Range lo hi =>
      match s with
      | String c _ =>
          if PyStr.in_range (PyStr.code lo) (PyStr.code hi) c
          then Some (String c EmptyString) else None
      | EmptyString => None
      end
  | Alt r1 r2 =>
      match match_prefix r1 s with
      | Some m => Some m
      | None => match_prefix r2 s
      end
  end.

(** [re.findall(r, s)] for a pattern that is one group and matches no
    empty text: scan left to right, at each position emit the match and
    resume after it, or move one character on.  [skip] counts the
    characters of the last match still to be passed over. *)
Fixpoint findall_from (r : regex) (skip : nat) (s : string) : list string :=
  match s with
  | EmptyString => []
  | String _ s' =>
      match skip with
      | S k => findall_from r k s'
      | O =>
          match match_prefix r s with
          | Some m => m :: findall_from r (String.length m - 1) s'
          | None => findall_from r 0 s'
          end
      end
  end.

Definition findall (r : regex) (s : string) : list string :=
  findall_from r 0 s.

End PyRe.

(** ** [int(s)] and [float(s)] on a string *)

Module PyNum.

(** The white space that [int] and [float] drop on both sides: U+0085
    and U+00A0 count, the separators U+001C .. U+001F do not. *)
Definition isspace (c : ascii) : bool :=
  PyStr.in_range 9 13 c || (PyStr.code c =? 32)%N
  || (PyStr.code c =? 133)%N || (PyStr.code c =? 160)%N.

Fixpoint skip_space (s : string) : string :=
  match s with
  | EmptyString => EmptyString
  | String c s' => if isspace c then skip_space s' else s
  end.

Definition strip_space (s : string) : string :=
  String.rev (skip_space (String.rev (skip_space s))).

Definition digit_of (c : ascii) : option N :=
  if PyStr.in_range 48 57 c then Some (PyStr.code c - 48)%N else None.

(** [sign ::= "+" | "-"], optional; the flag is [true] for "-". *)
Definition sign (s : string) : bool * string :=
  match s with
  | String "+" s' => (false, s')
  | String "-" s' => (true, s')
  | _ => (false, s)
  end.

(** [(["_"] digit)*]: the longest such run and what follows it. *)
Fixpoint digit_run (s : string) : list N * string :=
  match s with
  | EmptyString => ([], EmptyString)
  | String c s' =>
      match digit_of c with
      | Some d => let (ds, r) := digit_run s' in (d :: ds, r)
      | None =>
          if Ascii.eqb c "_" then
            match s' with
            | String c2 s'' =>
                match digit_of c2 with
                | Some d => let (ds, r) := digit_run s'' in (d :: ds, r)
                | None => ([], s)
                end
            | EmptyString => ([], s)
            end
          else ([], s)
      end
  end.

(** [digitpart ::= digit (["_"] digit)*] *)
Definition digitpart (s : string) : option (list N * string) :=
  match s with
  | String c s' =>
      match digit_of c with
      | Some d => let (ds, r) := digit_run s' in Some (d :: ds, r)
      | None => None
      end
  | EmptyString => None
  end.

Definition decimal (ds : list N) : N :=
  fold_left (fun acc d => (10 * acc + d)%N) ds 0%N.

(** CPython refuses a decimal text of more digits than this (the default
    of [sys.set_int_max_str_digits]) with a [ValueError]. *)
Definition int_max_str_digits : nat := 4300.

(** The integer literals [int] accepts in base ten, with their value. *)
Definition int_literal (s : string) : option Z :=
  let (neg, u) := sign (strip_space s) in
  match digitpart u with
  | Some (ds, EmptyString) =>
      if (List.length ds <=? int_max_str_digits)%nat
      then Some (if neg then - Z.of_N (decimal ds) else Z.of_N (decimal ds))%Z
      else None
  | _ => None
  end.

Definition int (s : string) : result Z :=
  match int_literal s with
  | Some n => Ok n
  | None => Raise ValueError
  end.

(** A Python float, named by the decimal text it was read from:
    [FDecimal neg m e] is the binary64 number nearest to
    [(-1)^neg * m * 10^e]. *)
Inductive float : Type :=
| FDecimal (neg : bool) (m : N) (e : Z)
| FInf (neg : bool)
| FNaN (neg : bool).

Definition zero : float := FDecimal false 0 0.

Definition lower_char (c : ascii) : ascii :=
  if PyStr.in_range 65 90 c then ascii_of_N (PyStr.code c + 32) else c.

Fixpoint lower (s : string) : string :=
  match s with
  | EmptyString => EmptyString
  | String c s' => String (lower_char c) (lower s')
  end.

(** [number ::= [digitpart] "." digitpart | digitpart ["."]]: the digits
    before the point, the digits after it, and the rest. *)
Definition number (s : string) : option (list N * list N * string) :=
  match digitpart s with
  | Some (ip, r) =>
      match r with
      | String "." r' =>
          match digitpart r' with
          | Some (fp, r'') => Some (ip, fp, r'')
          | None => Some (ip, [], r')
          end
      | _ => Some (ip, [], r)
      end
  | None =>
      match s with
      | String "." r' =>
          match digitpart r' with
          | Some (fp, r'') => Some ([], fp, r'')
          | None => None
          end
      | _ => None
      end
  end.

(** [exponent ::= ("e" | "E") [sign] digitpart], optional: its value and
    the rest; [None] when an [e] is not followed by an exponent. *)
Definition exponent (s : string) : option (Z * string) :=
  match s with
  | String c s' =>
      if Ascii.eqb (lower_char c) "e" then
        let (neg, u) := sign s' in
        match digitpart u with
        | Some (ds, r) =>
            Some (if neg then - Z.of_N (decimal ds) else Z.of_N (decimal ds), r)%Z
        | None => None
        end
      else Some (0%Z, s)
  | EmptyString => Some (0%Z, s)
  end.

(** The float literals [float] accepts, with the number they name. *)
Definition float_literal (s : string) : option float :=
  let (neg, u) := sign (strip_space s) in
  if String.eqb (lower u) "inf" || String.eqb (lower u) "infinity"
  then Some (FInf neg)
  else if String.eqb (lower u) "nan" then Some (FNaN neg)
  else
    match number u with
    | Some (ip, fp, r) =>
        match exponent r with
        | Some (e, EmptyString) =>
            Some (FDecimal neg (decimal (ip ++ fp))
                    (e - Z.of_nat (List.length fp)))
        | _ => None
        end
    | None => None
    end.

Definition float_of_str (s : string) : result float :=
  match float_literal s with
  | Some x => Ok x
  | None => Raise ValueError
  end.

End PyNum.

(** ** Helper functions for parsing (lines 17-55 of the source) *)

Definition parse_credits (credit_str : string) : result Z :=
  try_except (PyNum.int credit_str) [ValueError; TypeError] (Ok 0%Z).

Definition parse_ects (ects_str : string) : result PyNum.float :=
  try_except (PyNum.float_of_str ects_str) [ValueError; TypeError]
    (Ok PyNum.zero).

Definition newline : ascii := ascii_of_N 10.

Definition parse_list_of_strings (s : string) : list string :=
  if negb (PyStr.truthy s) || negb (PyStr.truthy (PyStr.strip s)) then []
  else List.filter PyStr.truthy (PyStr.split newline (PyStr.strip s)).

(** [r'(Th|W|M|F|T|S)'] *)
Definition days_pattern : PyRe.regex :=
  PyRe.Alt (PyRe.Lit "Th") (PyRe.Alt (PyRe.Lit "W") (PyRe.Alt (PyRe.Lit "M")
    (PyRe.Alt (PyRe.Lit "F") (PyRe.Alt (PyRe.Lit "T") (PyRe.Lit "S"))))).

Definition parse_days (days_str : string) : list string :=
  if negb (PyStr.truthy days_str) || negb (PyStr.truthy (PyStr.strip days_str))
  then []
  else PyRe.findall days_pattern (PyStr.strip days_str).

(** [r'(10|11|[1-9])'] *)
Definition hours_pattern : PyRe.regex :=
  PyRe.Alt (PyRe.Lit "10") (PyRe.Alt (PyRe.Lit "11") (PyRe.Range "1" "9")).

Definition parse_hours (hours_str : string) : list string :=
  if negb (PyStr.truthy hours_str) || negb (PyStr.truthy (PyStr.strip hours_str))
  then []
  else PyRe.findall hours_pattern (PyStr.strip hours_str).

(** ** The table rows and the records built from them *)

(** A [td] element as the scraper sees it: its rendered text, and the
    rendered texts of its [span] descendants in document order. *)
Record cell : Type := { text : string; spans : list string }.

Definition row : Type := list cell.

(** [cols[i]]; every use follows the test [len(cols) < 10], which keeps
    the index in range. *)
Definition col (cols : row) (i : nat) : cell :=
  nth i cols {| text := EmptyString; spans := [] |}.

(** The dictionary [course_data].  A key that the scraper sets only under
    a condition is an [option]: [None] is the absent key. *)
Record course : Type := {
  code : string;
  name : string;
  credits : Z;
  ects : PyNum.float;
  instructor : string;
  requiredForDept : option (list string);
  days : option (list string);
  hours : option (list string);
  rooms : list string
}.

Definition set_days (v : list string) (c : course) : course :=
  {| code := code c; name := name c; credits := credits c; ects := ects c;
     instructor := instructor c; requiredForDept := requiredForDept c;
     days := Some v; hours := hours c; rooms := rooms c |}.

Definition set_hours (v : list string) (c : course) : course :=
  {| code := code c; name := name c; credits := credits c; ects := ects c;
     instructor := instructor c; requiredForDept := requiredForDept c;
     days := days c; hours := Some v; rooms := rooms c |}.

Definition set_rooms (v : list string) (c : course) : course :=
  {| code := code c; name := name c; credits := credits c; ects := ects c;
     instructor := instructor c; requiredForDept := requiredForDept c;
     days := days c; hours := hours c; rooms := v |}.

(** The two variables of [scrape_boun_schedule] that the row loop reads
    and writes. *)
Record scan_state : Type := {
  results : gmap string course;
  last_course_key : option string
}.

(** The statements of the row loop act on this state. *)
Abbreviation stmt := (prog scan_state).

(** [results[key]], a handle on the stored dictionary. *)
Definition get_record (key : string) : stmt course :=
  fun st =>
    match results st !! key with
    | Some c => (st, Ok c)
    | None => (st, Raise (KeyError key))
    end.

Definition put_record (key : string) (c : course) : stmt unit :=
  fun st =>
    ({| results := <[key := c]> (results st);
        last_course_key := last_course_key st |}, Ok tt).

Definition set_last_course_key (key : string) : stmt unit :=
  fun st => ({| results := results st; last_course_key := Some key |}, Ok tt).

(** [results[key]["days"].extend(xs)] *)
Definition extend_days (key : string) (xs : list string) : stmt unit :=
  c <- get_record key ;;
  match days c with
  | Some l => put_record key (set_days (l ++ xs) c)
  | None => raise (KeyError "days")
  end.

(** [results[key]["hours"].extend(xs)] *)
Definition extend_hours (key : string) (xs : list string) : stmt unit :=
  c <- get_record key ;;
  match hours c with
  | Some l => put_record key (set_hours (l ++ xs) c)
  | None => raise (KeyError "hours")
  end.

(** [results[key]["rooms"].extend(xs)] *)
Definition extend_rooms (key : string) (xs : list string) : stmt unit :=
  c <- get_record key ;;
  put_record key (set_rooms (rooms c ++ xs) c).

(** [[span.text.strip() for span in spans if span.text.strip()]] *)
Definition span_texts (sp : list string) : list string :=
  List.filter PyStr.truthy (List.map PyStr.strip sp).

(** The rooms of a new record (lines 209-222). *)
Definition new_rooms (room_cell : cell) : list string :=
  let room_text := PyStr.strip (text room_cell) in
  if PyStr.contains "Online" room_text then ["Online"]
  else if PyStr.truthy room_text then parse_list_of_strings room_text
  else
    match spans room_cell with
    | _ :: _ => span_texts (spans room_cell)
    | [] => ["N/A"]
    end.

(** The rooms a continuation row adds (lines 163-175). *)
Definition more_rooms (key : string) (room_cell : cell) : stmt unit :=
  let room_text := PyStr.strip (text room_cell) in
  if PyStr.contains "Online" room_text then extend_rooms key ["Online"]
  else if PyStr.truthy room_text
       then extend_rooms key (parse_list_of_strings room_text)
  else
    match spans room_cell with
    | _ :: _ => extend_rooms key (span_texts (spans room_cell))
    | [] => ret tt
    end.

(** [last_course_key and last_course_key in results]: the key of the
    record that a continuation row extends, if there is one. *)
Definition current_record (st : scan_state) : option string :=
  match last_course_key st with
  | Some key =>
      if PyStr.truthy key && bool_decide (is_Some (results st !! key))
      then Some key else None
  | None => None
  end.

(** Lines 159-175. *)
Definition continuation (key : string) (cols : row) : stmt unit :=
  when (PyStr.truthy (PyStr.strip (text (col cols 7))))
       (extend_days key (parse_days (text (col cols 7)))) ;;;
  when (PyStr.truthy (PyStr.strip (text (col cols 8))))
       (extend_hours key (parse_hours (text (col cols 8)))) ;;;
  more_rooms key (col cols 9).

(** Lines 184-189. *)
Definition make_key (course_code_raw course_name_raw section_part : string)
    : string :=
  let unique_key := PyStr.replace " " "" course_code_raw in
  if PyStr.contains "LAB" (PyStr.upper course_name_raw)
     || PyStr.contains "P.S." (PyStr.upper course_name_raw)
  then if PyStr.truthy section_part
       then unique_key ++ "." ++ section_part
       else unique_key
  else unique_key.

(** Lines 182-224. *)
Definition new_record (course_code_raw : string) (cols : row) : stmt unit :=
  let course_name_raw := PyStr.strip (text (col cols 2)) in
  let section_part := PyStr.replace " " "" (PyStr.strip (text (col cols 1))) in
  let unique_key := make_key course_code_raw course_name_raw section_part in
  set_last_course_key unique_key ;;;
  cr <- lift (parse_credits (PyStr.strip (text (col cols 3)))) ;;
  ec <- lift (parse_ects (PyStr.strip (text (col cols 4)))) ;;
  put_record unique_key
    {| code := course_code_raw;
       name := course_name_raw;
       credits := cr;
       ects := ec;
       instructor := PyStr.strip (text (col cols 6));
       requiredForDept :=
         if PyStr.truthy (PyStr.strip (text (col cols 5)))
         then Some (parse_list_of_strings (text (col cols 5)))
         else None;
       days :=
         if PyStr.truthy (PyStr.strip (text (col cols 7)))
         then Some (parse_days (text (col cols 7))) else None;
       hours :=
         if PyStr.truthy (PyStr.strip (text (col cols 8)))
         then Some (parse_hours (text (col cols 8))) else None;
       rooms := new_rooms (col cols 9) |}.

(** The body of [for row in rows] (lines 149-224). *)
Definition process_row (cols : row) : stmt unit :=
  fun st =>
    if (List.length cols <? 10)%nat then ret tt st
    else
      let course_code_raw := PyStr.strip (text (col cols 0)) in
      match PyStr.truthy course_code_raw, current_record st with
      | false, Some key => continuation key cols st
      | false, None => ret tt st
      | true, _ => new_record course_code_raw cols st
      end.

(** [for row in rows: ...]; an exception ends the loop. *)
Fixpoint scan_rows (rows : list row) : stmt unit :=
  match rows with
  | [] => ret tt
  | cols :: rest => process_row cols ;;; scan_rows rest
  end.

(** A department page as the browser shows it: [table] is [None] when no
    [table[border='1']] turns up within the wait, else all the [tr] rows
    of the table with their [td] cells, the header row first. *)
Record page : Type := { url : string; table : option (list row) }.

(** One turn of [for url in department_urls] (lines 131-228): a page
    without the table is skipped, and an exception raised while its rows
    are read is caught by [except Exception], which goes on to the next
    page.  The messages printed on the way are left out: they read
    [results] and [last_course_key] but do not change them. *)
Definition scrape_department (p : page) (st : scan_state) : scan_state :=
  match table p with
  | None => st
  | Some trs => fst (scan_rows (tail trs) st)
  end.

(** Lines 102 and 128: the state before the first page. *)
Definition initial_state : scan_state :=
  {| results := ∅; last_course_key := None |}.

(** Lines 128-228 with [results] as returned at line 233. *)
Definition scrape_pages (pages : list page) : scan_state :=
  fold_left (fun st p => scrape_department p st) pages initial_state.

(** ** The semester list and the start of a run (lines 59-89, 255-312) *)

(** What the program prints: a fixed text, a text followed by the message
    of an exception, or a numbered entry of the menu. *)
Inductive line : Type :=
| Text (s : string)
| TextExn (s : string) (e : exn)
| Numbered (n : nat) (s : string).

(** The answers of the browser and of the site to the calls made before a
    semester is chosen: starting Chrome (lines 69-70), starting Firefox
    (lines 81-82), loading the page (line 266), and finding the selector
    and reading the [value] attribute of each of its options (lines
    267-270; [None] is an option without the attribute). *)
Record browser : Type := {
  chrome : result unit;
  firefox : result unit;
  load_page : result unit;
  semester_options : result (list (option string))
}.

(** The console and the number of [driver.quit()] calls made so far. *)
Record io : Type := { stdout : list line; quit_calls : nat }.

Definition print (l : line) : prog io unit :=
  fun w => ({| stdout := stdout w ++ [l]; quit_calls := quit_calls w |}, Ok tt).

Definition driver_quit : prog io unit :=
  fun w => ({| stdout := stdout w; quit_calls := S (quit_calls w) |}, Ok tt).

(** The name of the browser that started, [None] for [(None, None)]. *)
Definition get_webdriver (b : browser) : prog io (option string) :=
  match chrome b with
  | Ok _ => print (Text "Using Chrome WebDriver.") ;;; ret (Some "chrome")
  | Raise e =>
      print (TextExn "Chrome WebDriver not available: " e) ;;;
      match firefox b with
      | Ok _ => print (Text "Using Firefox WebDriver.") ;;; ret (Some "firefox")
      | Raise e' =>
          print (TextExn "Firefox WebDriver not available: " e') ;;;
          print (Text "Neither Chrome nor Firefox WebDriver could be initialized.") ;;;
          ret None
      end
  end.

(** Lines 268-270: the values that are neither absent nor empty. *)
Definition option_values (opts : list (option string)) : list string :=
  List.filter PyStr.truthy (omap id opts).

Definition fetch_semesters_from_website (b : browser) : prog io (list string) :=
  driver <- get_webdriver b ;;
  match driver with
  | None =>
      print (Text "Please ensure you have Chrome or Firefox and their drivers installed.") ;;;
      ret []
  | Some _ =>
      try_finally
        (lift (load_page b) ;;;
         opts <- lift (semester_options b) ;;
         ret (option_values opts))
        driver_quit
  end.

(** [semesters[idx]] under the test [0 <= idx < len(semesters)]. *)
Definition pick (idx : Z) (semesters : list string) : option string :=
  if ((0 <=? idx) && (idx <? Z.of_nat (List.length semesters)))%Z
  then nth_error semesters (Z.to_nat idx) else None.

Definition ask_text : string := "Select a semester by number (or 0 to quit): ".

(** The [while True] loop of [prompt_semester]; [stdin] holds the lines
    still to be read, and [input] raises [EOFError] when none is left. *)
Fixpoint ask (semesters : list string) (stdin : list string)
    : prog io (option string) :=
  match stdin with
  | [] => print (Text ask_text) ;;; raise EOFError
  | choice :: rest =>
      print (Text ask_text) ;;;
      if String.eqb choice "0"
      then print (Text "Quitting application.") ;;; ret None
      else
        picked <- lift (try_except
                          (match PyNum.int choice with
                           | Ok n => Ok (pick (n - 1) semesters)
                           | Raise e => Raise e
                           end)
                          [ValueError] (Ok None)) ;;
        match picked with
        | Some sem => ret (Some sem)
        | None =>
            print (Text "Invalid selection. Please enter a number from the list or 0 to quit.") ;;;
            ask semesters rest
        end
  end.

Fixpoint print_all (ls : list line) : prog io unit :=
  match ls with
  | [] => ret tt
  | l :: rest => print l ;;; print_all rest
  end.

Definition prompt_semester (semesters stdin : list string)
    : prog io (option string) :=
  match semesters with
  | [] => print (Text "Could not fetch the semester list.") ;;; ret None
  | _ :: _ =>
      print (Text "") ;;;
      print (Text "Available semesters:") ;;;
      print_all (imap (fun idx sem => Numbered (List.length semesters - idx) sem)
                      (rev semesters)) ;;;
      ask semesters stdin
  end.

(** How the script ends, as far as the choice of the semester: with the
    traceback of an exception nobody caught, with nothing left to do, or
    by going on to scrape the chosen semester (lines 312-318). *)
Inductive ending : Type :=
| Traceback (e : exn)
| Finished
| Scraping (semester : string).

(** Lines 306-312. *)
Definition main (b : browser) (stdin : list string) : io * ending :=
  match (semesters <- fetch_semesters_from_website b ;;
         prompt_semester semesters stdin)
          {| stdout := []; quit_calls := 0 |} with
  | (w, Ok (Some sem)) => (w, if PyStr.truthy sem then Scraping sem else Finished)
  | (w, Ok None) => (w, Finished)
  | (w, Raise e) => (w, Traceback e)
  end.

(** ** The parsers in the words of the specification *)

Module Spec.

(** Section 4.1: the token sets of [parseDays] and [parseHours]. *)
Definition day_tokens : list string := ["Th"; "W"; "M"; "F"; "T"; "S"].

Definition hour_tokens : list string :=
  ["10"; "11"; "1"; "2"; "3"; "4"; "5"; "6"; "7"; "8"; "9"].

(** The longest token of the set that the text starts with; of two
    tokens of one length the one listed first. *)
Definition longest_token (tokens : list string) (s : string) : option string :=
  fold_left
    (fun best t =>
       if PyStr.startswith t s then
         match best with
         | Some b => if (String.length b <? String.length t)%nat
                     then Some t else best
         | None => Some t
         end
       else best)
    tokens None.

Fixpoint drop (n : nat) (s : string) : string :=
  match n, s with
  | S n', String _ s' => drop n' s'
  | _, _ => s
  end.

(** Greedy scanning from the left: at each position take the longest
    token and go on behind it; a character that starts no token is
    passed over.  [fuel] bounds the number of steps. *)
Fixpoint scan_tokens (tokens : list string) (fuel : nat) (s : string)
    : list string :=
  match fuel with
  | O => []
  | S fuel' =>
      match s with
      | EmptyString => []
      | String _ s' =>
          match longest_token tokens s with
          | Some t => t :: scan_tokens tokens fuel' (drop (String.length t) s)
          | None => scan_tokens tokens fuel' s'
          end
      end
  end.

Definition tokenize (tokens : list string) (s : string) : list string :=
  scan_tokens tokens (String.length s) s.

(** Section 4.4: a text with its white space removed. *)
Fixpoint remove_whitespace (s : string) : string :=
  match s with
  | EmptyString => EmptyString
  | String c s' =>
      if PyStr.isspace c then remove_whitespace s'
      else String c (remove_whitespace s')
  end.

(** Section 4.4: two characters that are the same but for the case of a
    letter A to Z. *)
Definition fold_case (c : ascii) : ascii :=
  if ((65 <=? N_of_ascii c) && (N_of_ascii c <=? 90))%N
  then ascii_of_N (N_of_ascii c + 32) else c.

Definition same_letter (a b : ascii) : bool :=
  Ascii.eqb (fold_case a) (fold_case b).

(** The text starts with the marker, the case of letters set aside. *)
Fixpoint startswith_nocase (marker s : string) : bool :=
  match marker with
  | EmptyString => true
  | String a marker' =>
      match s with
      | EmptyString => false
      | String b s' => same_letter a b && startswith_nocase marker' s'
      end
  end.

(** The text contains the marker, the case of letters set aside. *)
Fixpoint contains_nocase (marker s : string) : bool :=
  startswith_nocase marker s
  || match s with
     | EmptyString => false
     | String _ s' => contains_nocase marker s'
     end.

(** Section 4.4: the key of a record, from the texts of the code, name
    and section cells. *)
Definition key (code_text name_text section_text : string) : string :=
  let base := remove_whitespace code_text in
  let section := remove_whitespace section_text in
  if (contains_nocase "LAB" name_text || contains_nocase "P.S." name_text)
     && PyStr.truthy section
  then base ++ "." ++ section
  else base.

(** Section 4.3, steps 3 and 4: the rooms of a new record whose rooms
    cell shows no text, from the texts of the child elements, each taken
    without the white space around it. *)
Definition fallback_rooms (children : list string) : list string :=
  match List.filter PyStr.truthy (List.map PyStr.strip children) with
  | [] => ["N/A"]
  | texts => texts
  end.

End Spec.

(** The space character alone removed: what [replace(" ", "")] returns. *)
Fixpoint remove_spaces (s : string) : string :=
  match s with
  | EmptyString => EmptyString
  | String c s' =>
      if Ascii.eqb c " " then remove_spaces s' else String c (remove_spaces s')
  end.

(** A text without white space. *)
Fixpoint spaceless (s : string) : bool :=
  match s with
  | EmptyString => true
  | String c s' => negb (PyStr.isspace c) && spaceless s'
  end.

(** A pattern that matches nothing empty and nothing with white space in
    it. *)
Fixpoint solid (r : PyRe.regex) : Prop :=
  match r with
  | PyRe.Lit l => l <> EmptyString /\ spaceless l = true
  | PyRe.Range lo hi =>
      forall c, PyStr.in_range (PyStr.code lo) (PyStr.code hi) c = true ->
                PyStr.isspace c = false
  | PyRe.Alt r1 r2 => solid r1 /\ solid r2
  end.

(** The record that a new-record row stores (lines 193-222). *)
Definition built (course_code_raw : string) (cols : row) : course :=
  {| code := course_code_raw;
     name := PyStr.strip (text (col cols 2));
     credits := match PyNum.int_literal (PyStr.strip (text (col cols 3))) with
                | Some n => n
                | None => 0%Z
                end;
     ects := match PyNum.float_literal (PyStr.strip (text (col cols 4))) with
             | Some x => x
             | None => PyNum.zero
             end;
     instructor := PyStr.strip (text (col cols 6));
     requiredForDept :=
       if PyStr.truthy (PyStr.strip (text (col cols 5)))
       then Some (parse_list_of_strings (text (col cols 5))) else None;
     days :=
       if PyStr.truthy (PyStr.strip (text (col cols 7)))
       then Some (parse_days (text (col cols 7))) else None;
     hours :=
       if PyStr.truthy (PyStr.strip (text (col cols 8)))
       then Some (parse_hours (text (col cols 8))) else None;
     rooms := new_rooms (col cols 9) |}.

(** ** Integer and float literals in the words of Python's reference *)

Module Literal.

(** The white space that may stand around a literal. *)
Definition blank_char (c : ascii) : bool :=
  existsb (N.eqb (N_of_ascii c)) [9; 10; 11; 12; 13; 32; 133; 160]%N.

Fixpoint blank (s : string) : bool :=
  match s with
  | EmptyString => true
  | String c s' => blank_char c && blank s'
  end.

(** [sign ::= "+" | "-"], or nothing; the flag is [true] for "-". *)
Inductive sign : string -> bool -> Prop :=
| sign_none : sign "" false
| sign_plus : sign "+" false
| sign_minus : sign "-" true.

(** [digitpart ::= digit (["_"] digit)*], with the decimal numeral that
    its digits write. *)
Inductive digitpart : string -> Decimal.uint -> Prop :=
| digit_last c d :
    uint_of_char c (Some Decimal.Nil) = Some d ->
    digitpart (String c "") d
| digit_then c body d' d :
    digitpart body d' -> uint_of_char c (Some d') = Some d ->
    digitpart (String c body) d
| digit_under c body d' d :
    digitpart body d' -> uint_of_char c (Some d') = Some d ->
    digitpart (String c (String "_" body)) d.

(** The number that a decimal numeral names. *)
Definition value (d : Decimal.uint) : Z := Z.of_nat (Nat.of_uint d).

Definition signed (neg : bool) (z : Z) : Z := if neg then (- z)%Z else z.

(** An integer literal: white space, a sign, a digitpart, white space;
    with its numeral and its value. *)
Inductive integer : string -> Decimal.uint -> Z -> Prop :=
| integer_intro lpad sgn neg body d rpad :
    blank lpad = true -> sign sgn neg -> digitpart body d ->
    blank rpad = true ->
    integer (lpad ++ sgn ++ body ++ rpad) d (signed neg (value d)).

(** [number ::= [digitpart] "." digitpart | digitpart ["."]], with the
    numerals before and after the point. *)
Inductive number : string -> Decimal.uint -> Decimal.uint -> Prop :=
| number_whole body ip :
    digitpart body ip -> number body ip Decimal.Nil
| number_point body ip :
    digitpart body ip -> number (body ++ ".") ip Decimal.Nil
| number_both bi ip bf fp :
    digitpart bi ip -> digitpart bf fp -> number (bi ++ "." ++ bf) ip fp
| number_fraction bf fp :
    digitpart bf fp -> number ("." ++ bf) Decimal.Nil fp.

(** [exponent ::= ("e" | "E") [sign] digitpart], or nothing; with its
    value. *)
Inductive exponent : string -> Z -> Prop :=
| exponent_none : exponent "" 0
| exponent_some mark sgn neg body d :
    mark = "e" \/ mark = "E" -> sign sgn neg -> digitpart body d ->
    exponent (mark ++ sgn ++ body) (signed neg (value d)).

(** Two texts that are the same but for the case of letters. *)
Fixpoint equal_nocase (a b : string) : bool :=
  match a, b with
  | EmptyString, EmptyString => true
  | String x a', String y b' => Spec.same_letter x y && equal_nocase a' b'
  | _, _ => false
  end.

(** A float literal: white space, a sign, then a number with an exponent
    or one of the names [inf], [infinity], [nan] in any case, white space;
    with the float it names. *)
Inductive float : string -> PyNum.float -> Prop :=
| float_number lpad sgn neg num ip fp ex e rpad :
    blank lpad = true -> sign sgn neg -> number num ip fp ->
    exponent ex e -> blank rpad = true ->
    float (lpad ++ sgn ++ num ++ ex ++ rpad)
      (PyNum.FDecimal neg (N.of_nat (Nat.of_uint (Decimal.app ip fp)))
         (e - Z.of_nat (Decimal.nb_digits fp)))
| float_inf lpad sgn neg name rpad :
    blank lpad = true -> sign sgn neg ->
    equal_nocase name "inf" = true \/ equal_nocase name "infinity" = true ->
    blank rpad = true ->
    float (lpad ++ sgn ++ name ++ rpad) (PyNum.FInf neg)
| float_nan lpad sgn neg name rpad :
    blank lpad = true -> sign sgn neg -> equal_nocase name "nan" = true ->
    blank rpad = true ->
    float (lpad ++ sgn ++ name ++ rpad) (PyNum.FNaN neg).

End Literal.

(** A text of 4301 digits: 4300 zeros and a seven. *)
Fixpoint zeros (n : nat) (s : string) : string :=
  match n with
  | O => s
  | S n' => String "0" (zeros n' s)
  end.

Definition long_seven : string := zeros 4300 "7".

(** The numeral of [n] zeros before the digits [d]. *)
Fixpoint zero_digits (n : nat) (d : Decimal.uint) : Decimal.uint :=
  match n with
  | O => d
  | S n' => Decimal.D0 (zero_digits n' d)
  end.

(** ** Rows and pages to run the scraper on *)

(** A cell that shows [t] and has no [span] inside. *)
Definition td (t : string) : cell := {| text := t; spans := [] |}.

(** Rows A and B of the end-to-end scenario of section 8. *)
Definition row_A : row :=
  List.map td ["CMPE150"; " A"; "Intro to Computing"; "3"; "6"; ""; "Doe";
               "MW"; "910"; "101"].

Definition row_B : row :=
  List.map td [""; ""; ""; ""; ""; ""; ""; "F"; "11"; "102"].

(** Row A with its days and hours cells left empty. *)
Definition row_A_unscheduled : row :=
  List.map td ["CMPE150"; " A"; "Intro to Computing"; "3"; "6"; ""; "Doe";
               ""; ""; "101"].

(** Another course, to follow row B. *)
Definition row_C : row :=
  List.map td ["CMPE160"; " A"; "Object Oriented Programming"; "4"; "7"; "";
               "Roe"; "TTh"; "34"; "201"].

(** The header row of a department table. *)
Definition header : row :=
  List.map td ["Code.Sec"; "Desc."; "Name"; "Cr."; "Ects"; "Required for Dept.";
               "Instr."; "Days"; "Hours"; "Rooms"].

Definition record_A (d h : option (list string)) (r : list string) : course :=
  {| code := "CMPE150"; name := "Intro to Computing"; credits := 3;
     ects := PyNum.FDecimal false 6 0; instructor := "Doe";
     requiredForDept := None; days := d; hours := h; rooms := r |}.

(** A browser that starts and loads the page, on which the semester
    selector is not found. *)
Definition no_selector : browser :=
  {| chrome := Ok tt; firefox := Ok tt; load_page := Ok tt;
     semester_options := Raise NoSuchElementException |}.

(** A text whose only white space is the space character. *)
Fixpoint plain_spaces (s : string) : bool :=
  match s with
  | EmptyString => true
  | String c s' => (negb (PyStr.isspace c) || Ascii.eqb c " ") && plain_spaces s'
  end.

(** A lab row of the disambiguation scenario of section 8, with its
    section. *)
Definition lab_row (section : string) : row :=
  List.map td ["CMPE150"; section; "CMPE150 LAB"; "0"; "0"; ""; "Doe"; "M";
               "1"; "B1"].

(** Two rows whose names carry the markers in small and mixed letters. *)
Definition small_lab_row : row :=
  List.map td ["PHYS101"; "01"; "Physics lab"; "0"; "0"; ""; "Doe"; "M"; "1";
               "B1"].

Definition small_ps_row : row :=
  List.map td ["MATH101"; "02"; "Calculus p.S."; "0"; "0"; ""; "Roe"; "T";
               "2"; "B2"].

(** A code cell whose text breaks into two lines. *)
Definition two_line_code : string := "CMPE" ++ String newline "150".

Definition two_line_row : row :=
  List.map td [two_line_code; "01"; "Intro to Computing"; "3"; "6"; ""; "Doe";
               "MW"; "910"; "101"].

(** A row whose rooms cell shows no text and holds the given children. *)
Definition row_with_children (children : list string) : row :=
  (List.map td ["CMPE150"; " A"; "Intro to Computing"; "3"; "6"; ""; "Doe";
                "MW"; "910"]
   ++ [{| text := ""; spans := children |}])%list.

(** What a continuation row may change between two states: the days, the
    hours and the rooms of the record under [key], and nothing else. *)
Definition schedule_only (key : string) (st st' : scan_state) : Prop :=
  last_course_key st' = last_course_key st
  /\ dom (results st') = dom (results st)
  /\ (forall k, k <> key -> results st' !! k = results st !! k)
  /\ exists c c',
       results st !! key = Some c /\ results st' !! key = Some c'
       /\ code c' = code c /\ name c' = name c /\ credits c' = credits c
       /\ ects c' = ects c /\ instructor c' = instructor c
       /\ requiredForDept c' = requiredForDept c.

(** A statement that, run where a record is stored under [key], changes
    that record's schedule at most, whether it returns or raises. *)
Definition keeps {A} (key : string) (m : stmt A) : Prop :=
  forall st, is_Some (results st !! key) -> schedule_only key st (fst (m st)).

(** ** The rest of [scrape_boun_schedule] (lines 93-233) *)

(** [str(n)] for a length. *)
Definition show_nat (n : nat) : string :=
  NilEmpty.string_of_uint (Nat.to_uint n).

(** The longest run of capital letters at the start of a text: what
    [[A-Z]+] takes, when it takes anything. *)
Fixpoint capitals (s : string) : string :=
  match s with
  | EmptyString => EmptyString
  | String c s' =>
      if PyStr.in_range 65 90 c then String c (capitals s') else EmptyString
  end.

(** [re.search(r"kisaadi=([A-Z]+)", url)]: group 1 of the leftmost match,
    [None] when the pattern matches nowhere. *)
Fixpoint search_kisaadi (url : string) : option string :=
  match url with
  | EmptyString => None
  | String _ url' =>
      if PyStr.startswith "kisaadi=" url
         && PyStr.truthy (capitals (Spec.drop 8 url))
      then Some (capitals (Spec.drop 8 url))
      else search_kisaadi url'
  end.

(** Lines 144-145. *)
Definition dept_code (url : string) : string :=
  match search_kisaadi url with
  | Some g => g
  | None => "UNKNOWN"
  end.

(** One department link followed: the answer to [driver.get(url)] of line
    131 and the page the browser shows after it. *)
Record visit : Type := { opened : result unit; shown : page }.

(** Lines 132-228: one department, with what it prints. *)
Definition visit_department (p : page) (st : scan_state) : prog io scan_state :=
  match table p with
  | None =>
      print (Text ("Skipping department " ++ url p
                     ++ " (no table found after 3 seconds).")) ;;;
      ret st
  | Some trs =>
      let rows := tail trs in
      print (Text ("Scraping department: " ++ dept_code (url p) ++ " - "
                     ++ show_nat (List.length rows) ++ " lessons found.")) ;;;
      match scan_rows rows st with
      | (st', Ok _) => ret st'
      | (st', Raise e) =>
          print (TextExn ("Could not process department "
                            ++ dept_code (url p) ++ ". Error: ") e) ;;;
          ret st'
      end
  end.

(** Lines 130-228: [driver.get(url)] stands outside the inner [try], so an
    exception it raises ends the loop. *)
Fixpoint visit_all (vs : list visit) (st : scan_state) : prog io scan_state :=
  match vs with
  | [] => ret st
  | v :: rest =>
      lift (opened v) ;;;
      st' <- visit_department (shown v) st ;;
      visit_all rest st'
  end.

(** [scrape_boun_schedule]: [b] answers the start of the browser and
    [links] is what lines 106-124 come to, the department links in page
    order, each with what following it gives, or the exception that one
    of these lines raises.  The semester and the headless flag reach the
    browser only. *)
Definition scrape_boun_schedule (b : browser) (links : result (list visit))
    : prog io (gmap string course) :=
  driver <- get_webdriver b ;;
  match driver with
  | None =>
      print (Text "Please ensure you have Chrome or Firefox and their drivers installed.") ;;;
      ret ∅
  | Some _ =>
      try_finally
        (vs <- lift links ;;
         print (Text ("Found " ++ show_nat (List.length vs)
                        ++ " department schedules to scrape.")) ;;;
         st <- visit_all vs initial_state ;;
         ret (results st))
        driver_quit
  end.

(** ** [save_json] (lines 235-253) *)

(** A JSON file: its path and the members of its top-level object in the
    order they are written. *)
Record file : Type := { path : string; members : list (string * course) }.

(** [os.path.join(a, b)] with POSIX separators, for an [a] that does not
    end in a slash. *)
Definition path_join (a b : string) : string :=
  if PyStr.startswith "/" b then b else a ++ "/" ++ b.

(** [sorted(data.items())]: the keys of a dictionary differ, so the pairs
    are ordered by their keys, compared as Python compares strings. *)
Definition key_le (x y : string * course) : Prop := String.le x.1 y.1.

Definition sorted_items (data : gmap string course) : list (string * course) :=
  merge_sort key_le (map_to_list data).

(** The file that the call leaves behind, if it writes one; the directory
    and the file are taken to be writable. *)
Definition save_json (data : gmap string course) (semester : string)
    : prog io (option file) :=
  if bool_decide (data = ∅) then
    print (Text "No data was scraped. JSON file will not be created.") ;;;
    ret None
  else
    let filename := path_join "data" (PyStr.replace "/" "-" semester ++ ".json") in
    print (Text "") ;;;
    print (Text ("Successfully saved " ++ show_nat (size data)
                   ++ " course sections to " ++ filename)) ;;;
    ret (Some {| path := filename; members := sorted_items data |}).

(** ** The whole script (lines 301-318) *)

(** [b] and [b'] answer the two starts of a browser, the one for the
    semester list and the one for the scrape. *)
Definition script (b b' : browser) (links : result (list visit))
    (stdin : list string) : io * result (option file) :=
  (semesters <- fetch_semesters_from_website b ;;
   selected <- prompt_semester semesters stdin ;;
   match selected with
   | Some sem =>
       if PyStr.truthy sem then
         print (Text "") ;;;
         print (Text ("Starting to scrape data for semester: " ++ sem ++ "...")) ;;;
         data <- scrape_boun_schedule b' links ;;
         save_json data sem
       else ret None
   | None => ret None
   end) {| stdout := []; quit_calls := 0 |}.

(** ** Helpers for stating further properties *)

(** ["".join(ts)] *)
Fixpoint glue (ts : list string) : string :=
  match ts with
  | [] => EmptyString
  | t :: rest => t ++ glue rest
  end.

(** A list of hour tokens in which no "1" stands right before a token
    that begins with "1". *)
Fixpoint separable (ts : list string) : bool :=
  match ts with
  | [] => true
  | t :: rest =>
      match rest with
      | [] => true
      | t' :: _ =>
          negb (String.eqb t "1" && PyStr.startswith "1" t') && separable rest
      end
  end.

(** The key that lines 182-189 make for a row. *)
Definition row_key (cols : row) : string :=
  make_key (PyStr.strip (text (col cols 0))) (PyStr.strip (text (col cols 2)))
    (PyStr.replace " " "" (PyStr.strip (text (col cols 1)))).

(** The digits of a decimal numeral, most significant first. *)
Fixpoint uint_digits (d : Decimal.uint) : list N :=
  match d with
  | Decimal.Nil => []
  | Decimal.D0 d => 0%N :: uint_digits d
  | Decimal.D1 d => 1%N :: uint_digits d
  | Decimal.D2 d => 2%N :: uint_digits d
  | Decimal.D3 d => 3%N :: uint_digits d
  | Decimal.D4 d => 4%N :: uint_digits d
  | Decimal.D5 d => 5%N :: uint_digits d
  | Decimal.D6 d => 6%N :: uint_digits d
  | Decimal.D7 d => 7%N :: uint_digits d
  | Decimal.D8 d => 8%N :: uint_digits d
  | Decimal.D9 d => 9%N :: uint_digits d
  end.

(** Whether one of the two browsers starts. *)
Definition started (b : browser) : bool :=
  match chrome b, firefox b with
  | Ok _, _ => true
  | Raise _, Ok _ => true
  | Raise _, Raise _ => false
  end.

(** A console on which nothing has been printed yet. *)
Definition fresh (quits : nat) : io := {| stdout := []; quit_calls := quits |}.

(** * Properties *)

(** ** Stripping and scanning *)

Section Scanning.

Import PyStr PyRe.

Lemma rstrip_cons (c : ascii) (s : string) :
  isspace c = false \/ rstrip s <> EmptyString ->
  rstrip (String c s) = String c (rstrip s).
Proof.
  intros H. simpl. destruct (rstrip s) eqn:E; [|reflexivity].
  destruct H as [H|H]; [now rewrite H | congruence].
Qed.

Lemma rstrip_cons_space (c : ascii) (s : string) :
  isspace c = true -> rstrip s = EmptyString ->
  rstrip (String c s) = EmptyString.
Proof. intros Hc Hs. simpl. now rewrite Hs, Hc. Qed.

Lemma rstrip_cases (c : ascii) (s : string) :
  (isspace c = true /\ rstrip s = EmptyString
   /\ rstrip (String c s) = EmptyString)
  \/ rstrip (String c s) = String c (rstrip s).
Proof.
  destruct (isspace c) eqn:Hc.
  - destruct (rstrip s) eqn:Hs.
    + left. repeat split. now apply rstrip_cons_space.
    + right. rewrite <- Hs. apply rstrip_cons. right. congruence.
  - right. apply rstrip_cons. now left.
Qed.

Lemma startswith_space (l : string) (c : ascii) (s : string) :
  l <> EmptyString -> spaceless l = true -> isspace c = true ->
  startswith l (String c s) = false.
Proof.
  destruct l as [|a l]; [congruence|]. intros _ Hl Hc. simpl in *.
  apply andb_prop in Hl as [Ha _].
  destruct (Ascii.eqb_spec a c) as [->|]; [|reflexivity].
  now rewrite Hc in Ha.
Qed.

Lemma startswith_rstrip (l s : string) :
  spaceless l = true -> startswith l (rstrip s) = startswith l s.
Proof.
  revert s. induction l as [|a l IH]; intros s Hl.
  - now destruct (rstrip s), s.
  - simpl in Hl. apply andb_prop in Hl as [Ha Hl].
    destruct s as [|c s]; [reflexivity|].
    destruct (rstrip_cases c s) as [(Hc & _ & ->) | ->].
    + simpl. destruct (Ascii.eqb_spec a c) as [->|]; [|reflexivity].
      now rewrite Hc in Ha.
    + simpl. now rewrite IH.
Qed.

Lemma match_prefix_space (r : regex) (c : ascii) (s : string) :
  solid r -> isspace c = true -> match_prefix r (String c s) = None.
Proof.
  induction r as [l|lo hi|r1 IH1 r2 IH2]; simpl; intros Hr Hc.
  - destruct Hr as [Hne Hl]. now rewrite startswith_space.
  - destruct (in_range (code lo) (code hi) c) eqn:E; [|reflexivity].
    apply Hr in E. congruence.
  - destruct Hr as [H1 H2]. now rewrite IH1, IH2.
Qed.

Lemma match_prefix_rstrip (r : regex) (s : string) :
  solid r -> match_prefix r (rstrip s) = match_prefix r s.
Proof.
  induction r as [l|lo hi|r1 IH1 r2 IH2]; simpl; intros Hr.
  - destruct Hr as [_ Hl]. now rewrite startswith_rstrip.
  - destruct s as [|c s]; [reflexivity|].
    destruct (rstrip_cases c s) as [(Hc & _ & ->) | ->]; [|reflexivity].
    destruct (in_range (code lo) (code hi) c) eqn:E; [|reflexivity].
    apply Hr in E. congruence.
  - destruct Hr as [H1 H2]. now rewrite IH1, IH2.
Qed.

Lemma match_prefix_nonempty (r : regex) (s m : string) :
  solid r -> match_prefix r s = Some m -> (1 <= String.length m)%nat.
Proof.
  revert m. induction r as [l|lo hi|r1 IH1 r2 IH2]; simpl; intros m Hr Hm.
  - destruct Hr as [Hne _]. destruct (startswith l s); [|discriminate].
    injection Hm as <-. destruct l; [congruence | simpl; lia].
  - destruct s as [|c s]; [discriminate|].
    destruct (in_range (code lo) (code hi) c); [|discriminate].
    injection Hm as <-. simpl. lia.
  - destruct Hr as [H1 H2]. destruct (match_prefix r1 s) eqn:E.
    + injection Hm as <-. now apply IH1.
    + now apply IH2.
Qed.

Lemma findall_from_rstrip (r : regex) (s : string) (k : nat) :
  solid r -> findall_from r k (rstrip s) = findall_from r k s.
Proof.
  intros Hr. revert k. induction s as [|c s IH]; intros k; [reflexivity|].
  destruct (rstrip_cases c s) as [(Hc & Hs & ->) | E].
  - simpl. destruct k as [|k].
    + rewrite match_prefix_space by assumption.
      rewrite <- IH, Hs. reflexivity.
    + rewrite <- IH, Hs. reflexivity.
  - rewrite E. simpl. destruct k as [|k]; [|apply IH].
    rewrite <- E, match_prefix_rstrip by assumption.
    destruct (match_prefix r (String c s)); now rewrite IH.
Qed.

Lemma findall_lstrip (r : regex) (s : string) :
  solid r -> findall r (lstrip s) = findall r s.
Proof.
  intros Hr. unfold findall. induction s as [|c s IH]; [reflexivity|].
  simpl. destruct (isspace c) eqn:Hc; [|reflexivity].
  now rewrite match_prefix_space.
Qed.

Lemma findall_strip (r : regex) (s : string) :
  solid r -> findall r (strip s) = findall r s.
Proof.
  intros Hr. unfold strip, findall.
  rewrite findall_from_rstrip by assumption. now apply findall_lstrip.
Qed.

(** Passing over [k] characters is dropping them. *)
Lemma findall_from_drop (r : regex) (k : nat) (s : string) :
  findall_from r k s = findall_from r 0 (Spec.drop k s).
Proof.
  revert s. induction k as [|k IH]; intros s.
  - now destruct s.
  - destruct s as [|c s]; [reflexivity|]. simpl. apply IH.
Qed.

Lemma length_drop (k : nat) (s : string) :
  String.length (Spec.drop k s) = (String.length s - k)%nat.
Proof.
  revert s. induction k as [|k IH]; intros [|c s]; simpl; auto with arith.
Qed.

(** A pattern that picks the longest token at every position makes
    [findall] the greedy scanner, whatever fuel the scanner is given
    beyond the length of the text. *)
Lemma findall_scan (r : regex) (tokens : list string) :
  solid r ->
  (forall s, match_prefix r s = Spec.longest_token tokens s) ->
  forall fuel s, (String.length s <= fuel)%nat ->
    findall r s = Spec.scan_tokens tokens fuel s.
Proof.
  intros Hr Hm. unfold findall.
  induction fuel as [|fuel IH]; intros [|c s] Hlen; simpl in *; try lia;
    try reflexivity.
  rewrite <- Hm.
  destruct (match_prefix r (String c s)) as [m|] eqn:E.
  - pose proof (match_prefix_nonempty _ _ _ Hr E) as Hpos.
    destruct (String.length m) as [|n] eqn:El; [lia|]. simpl.
    rewrite Nat.sub_0_r, findall_from_drop. f_equal. apply IH.
    rewrite length_drop. lia.
  - apply IH. lia.
Qed.

End Scanning.

(** ** The two patterns pick the longest token *)

Section Patterns.

Import PyStr PyRe.

Local Ltac each_char c := destruct c as [[] [] [] [] [] [] [] []].

Lemma days_pattern_solid : solid days_pattern.
Proof. cbn. repeat split; discriminate. Qed.

Lemma hours_pattern_solid : solid hours_pattern.
Proof.
  cbn. repeat split; try discriminate.
  intros c. each_char c; vm_compute; congruence.
Qed.

Lemma days_pattern_longest (s : string) :
  match_prefix days_pattern s = Spec.longest_token Spec.day_tokens s.
Proof.
  destruct s as [|c s]; [reflexivity|].
  each_char c; try reflexivity.
  destruct s as [|d s]; [reflexivity|].
  each_char d; reflexivity.
Qed.

Lemma hours_pattern_longest (s : string) :
  match_prefix hours_pattern s = Spec.longest_token Spec.hour_tokens s.
Proof.
  destruct s as [|c s]; [reflexivity|].
  each_char c; try reflexivity.
  destruct s as [|d s]; [reflexivity|].
  each_char d; reflexivity.
Qed.

Lemma parse_days_findall (s : string) :
  parse_days s = findall days_pattern (strip s).
Proof.
  unfold parse_days. destruct s as [|c s]; [reflexivity|]. simpl truthy.
  simpl negb at 1. rewrite orb_false_l.
  destruct (strip (String c s)); reflexivity.
Qed.

Lemma parse_hours_findall (s : string) :
  parse_hours s = findall hours_pattern (strip s).
Proof.
  unfold parse_hours. destruct s as [|c s]; [reflexivity|]. simpl truthy.
  simpl negb at 1. rewrite orb_false_l.
  destruct (strip (String c s)); reflexivity.
Qed.

End Patterns.

(** C5.  For every input string [parse_hours] returns the hour tokens found
    by greedy scanning from the left, where at each position the two-digit
    tokens "10" and "11" are taken before a single digit, the digits 1 to 9
    match one by one otherwise, and a character that starts no token is
    passed over; so "12391011" gives 1, 2, 3, 9, 10, 11 and "101" gives
    10, 1. *)
Theorem parse_hours_greedy :
  (forall s, parse_hours s = Spec.tokenize Spec.hour_tokens s)
  /\ parse_hours "12391011" = ["1"; "2"; "3"; "9"; "10"; "11"]
  /\ parse_hours "101" = ["10"; "1"].
Proof.
  split; [|split; reflexivity].
  intros s. rewrite parse_hours_findall.
  rewrite findall_strip by apply hours_pattern_solid.
  apply findall_scan;
    auto using hours_pattern_solid, hours_pattern_longest.
Qed.

(** C6.  For every input string [parse_days] returns the day tokens found
    by greedy matching from the left against the tokens Th, W, M, F, T, S,
    where "Th" is taken before the single letter "T" at each position and a
    character that starts no token is passed over; so "WWWThThTh" gives
    W, W, W, Th, Th, Th and "MThF" gives M, Th, F. *)
Theorem parse_days_greedy :
  (forall s, parse_days s = Spec.tokenize Spec.day_tokens s)
  /\ parse_days "WWWThThTh" = ["W"; "W"; "W"; "Th"; "Th"; "Th"]
  /\ parse_days "MThF" = ["M"; "Th"; "F"].
Proof.
  split; [|split; reflexivity].
  intros s. rewrite parse_days_findall.
  rewrite findall_strip by apply days_pattern_solid.
  apply findall_scan;
    auto using days_pattern_solid, days_pattern_longest.
Qed.

(** ** Credits and ECTS *)

Lemma parse_credits_value (s : string) :
  parse_credits s
  = Ok (match PyNum.int_literal s with Some n => n | None => 0%Z end).
Proof.
  unfold parse_credits, PyNum.int. destruct (PyNum.int_literal s); reflexivity.
Qed.

Lemma parse_ects_value (s : string) :
  parse_ects s
  = Ok (match PyNum.float_literal s with Some x => x | None => PyNum.zero end).
Proof.
  unfold parse_ects, PyNum.float_of_str.
  destruct (PyNum.float_literal s); reflexivity.
Qed.

(** ** The scenario of two rows *)

Section Scenario.

Local Ltac cells r H :=
  repeat (destruct r as [|[? ?] r]; [discriminate H|];
          simpl in H; injection H as -> H);
  destruct r; [clear H | discriminate H].

(** C1.  A department page made of row A, with the cell texts CMPE150,
    " A", Intro to Computing, 3, 6, empty, Doe, MW, 910, 101, and of the
    continuation row B, with seven empty texts and then F, 11, 102, gives
    exactly one record; its key is CMPE150, its days are M, W, F, its
    hours 9, 10, 11 and its rooms 101, 102. *)
Theorem scenario_two_rows (u : string) (header rowA rowB : row) :
  List.map text rowA
  = ["CMPE150"; " A"; "Intro to Computing"; "3"; "6"; ""; "Doe"; "MW";
     "910"; "101"] ->
  List.map text rowB = [""; ""; ""; ""; ""; ""; ""; "F"; "11"; "102"] ->
  results (scrape_pages [{| url := u; table := Some [header; rowA; rowB] |}])
  = {[ "CMPE150" :=
         {| code := "CMPE150"; name := "Intro to Computing"; credits := 3;
            ects := PyNum.FDecimal false 6 0; instructor := "Doe";
            requiredForDept := None;
            days := Some ["M"; "W"; "F"];
            hours := Some ["9"; "10"; "11"];
            rooms := ["101"; "102"] |} ]}
  /\ scan_rows [rowA; rowB] initial_state
     = (scrape_pages [{| url := u; table := Some [header; rowA; rowB] |}],
        Ok tt).
Proof.
  intros HA HB. cells rowA HA. cells rowB HB.
  split; vm_compute; reflexivity.
Qed.

Lemma scenario_two_rows_witness :
  let td := fun t => {| text := t; spans := [] |} in
  let rowA := List.map td ["CMPE150"; " A"; "Intro to Computing"; "3"; "6";
                           ""; "Doe"; "MW"; "910"; "101"] in
  let rowB := List.map td [""; ""; ""; ""; ""; ""; ""; "F"; "11"; "102"] in
  let p := {| url := "sch.asp?kisaadi=CMPE"; table := Some [[]; rowA; rowB] |} in
  dom (results (scrape_pages [p])) = {[ "CMPE150" ]}
  /\ scan_rows [rowA; rowB] initial_state = (scrape_pages [p], Ok tt).
Proof.
  intros td rowA rowB p.
  destruct (scenario_two_rows "sch.asp?kisaadi=CMPE" [] rowA rowB
              eq_refl eq_refl) as [H1 H2].
  split; [|exact H2].
  transitivity (dom (M := gmap string course) {[ "CMPE150" := 
         {| code := "CMPE150"; name := "Intro to Computing"; credits := 3;
            ects := PyNum.FDecimal false 6 0; instructor := "Doe";
            requiredForDept := None;
            days := Some ["M"; "W"; "F"];
            hours := Some ["9"; "10"; "11"];
            rooms := ["101"; "102"] |} ]}).
  - exact (f_equal dom H1).
  - apply dom_singleton_L.
Defined.

End Scenario.

(** ** The frame of a continuation row *)

Section Frame.

Variable key : string.

Lemma schedule_only_refl (st : scan_state) :
  is_Some (results st !! key) -> schedule_only key st st.
Proof.
  intros [c Hc]. repeat split; auto. exists c, c. repeat split; auto.
Qed.

Lemma schedule_only_trans (st1 st2 st3 : scan_state) :
  schedule_only key st1 st2 -> schedule_only key st2 st3 ->
  schedule_only key st1 st3.
Proof.
  intros (Hl1 & Hd1 & Ho1 & c1 & c2 & Hc1 & Hc2 & F1)
         (Hl2 & Hd2 & Ho2 & c2' & c3 & Hc2' & Hc3 & F2).
  rewrite Hc2 in Hc2'. injection Hc2' as <-.
  split; [congruence|]. split; [congruence|].
  split; [intros k Hk; rewrite Ho2, Ho1; auto|].
  exists c1, c3. destruct F1 as (?&?&?&?&?&?), F2 as (?&?&?&?&?&?).
  repeat split; auto; congruence.
Qed.

Lemma schedule_only_is_Some (st st' : scan_state) :
  schedule_only key st st' -> is_Some (results st' !! key).
Proof. intros (_ & _ & _ & c & c' & _ & Hc' & _). eauto. Qed.

Lemma keeps_ret {A} (a : A) : keeps key (ret a).
Proof. intros st H. now apply schedule_only_refl. Qed.

Lemma keeps_raise {A} (e : exn) : keeps key (@raise _ A e).
Proof. intros st H. now apply schedule_only_refl. Qed.

Lemma keeps_bind {A B} (m : stmt A) (k : A -> stmt B) :
  keeps key m -> (forall a, keeps key (k a)) -> keeps key (bind m k).
Proof.
  intros Hm Hk st H. unfold bind. specialize (Hm st H).
  destruct (m st) as [st' [a|e]]; simpl in *; [|exact Hm].
  eapply schedule_only_trans; [exact Hm|].
  apply Hk. eapply schedule_only_is_Some, Hm.
Qed.

Lemma keeps_when (b : bool) (m : stmt unit) :
  keeps key m -> keeps key (when b m).
Proof. destruct b; [auto | intros _; apply keeps_ret]. Qed.

Lemma results_put (k : string) (c : course) (st : scan_state) :
  results (fst (put_record k c st)) = <[k := c]> (results st).
Proof. reflexivity. Qed.

Lemma last_put (k : string) (c : course) (st : scan_state) :
  last_course_key (fst (put_record k c st)) = last_course_key st.
Proof. reflexivity. Qed.

Lemma keeps_put (c c' : course) (st : scan_state) :
  results st !! key = Some c ->
  code c' = code c -> name c' = name c -> credits c' = credits c ->
  ects c' = ects c -> instructor c' = instructor c ->
  requiredForDept c' = requiredForDept c ->
  schedule_only key st (fst (put_record key c' st)).
Proof.
  intros Hc. intros. unfold schedule_only.
  rewrite results_put, last_put.
  split; [reflexivity|]. split; [|split].
  - rewrite dom_insert_L. apply elem_of_dom_2 in Hc.
    apply subseteq_union_1_L, singleton_subseteq_l, Hc.
  - intros k Hk. now apply lookup_insert_ne.
  - exists c, c'. rewrite lookup_insert_eq. repeat split; auto.
Qed.

Lemma keeps_extend_days (xs : list string) : keeps key (extend_days key xs).
Proof.
  intros st [c Hc]. unfold extend_days, bind, get_record. rewrite Hc.
  destruct (days c); [|apply schedule_only_refl; eauto].
  now apply keeps_put with (c := c).
Qed.

Lemma keeps_extend_hours (xs : list string) : keeps key (extend_hours key xs).
Proof.
  intros st [c Hc]. unfold extend_hours, bind, get_record. rewrite Hc.
  destruct (hours c); [|apply schedule_only_refl; eauto].
  now apply keeps_put with (c := c).
Qed.

Lemma keeps_extend_rooms (xs : list string) : keeps key (extend_rooms key xs).
Proof.
  intros st [c Hc]. unfold extend_rooms, bind, get_record. rewrite Hc.
  now apply keeps_put with (c := c).
Qed.

Lemma keeps_more_rooms (room_cell : cell) : keeps key (more_rooms key room_cell).
Proof.
  unfold more_rooms.
  destruct (PyStr.contains _ _); [apply keeps_extend_rooms|].
  destruct (PyStr.truthy _); [apply keeps_extend_rooms|].
  destruct (spans room_cell); [apply keeps_ret | apply keeps_extend_rooms].
Qed.

Lemma keeps_continuation (cols : row) : keeps key (continuation key cols).
Proof.
  unfold continuation.
  apply keeps_bind; [apply keeps_when, keeps_extend_days | intros _].
  apply keeps_bind; [apply keeps_when, keeps_extend_hours | intros _].
  apply keeps_more_rooms.
Qed.

End Frame.

Lemma current_record_Some (st : scan_state) (key : string) :
  current_record st = Some key ->
  last_course_key st = Some key /\ PyStr.truthy key = true
  /\ is_Some (results st !! key).
Proof.
  unfold current_record. destruct (last_course_key st) as [k|]; [|discriminate].
  destruct (PyStr.truthy k) eqn:Hk; [|discriminate]. simpl.
  case_bool_decide; [|discriminate]. intros [= ->]. auto.
Qed.

(** A row of ten cells or more with an empty first cell, met while a
    current record exists, runs the continuation branch. *)
Lemma process_row_continuation (cols : row) (st : scan_state) (key : string) :
  (10 <= List.length cols)%nat ->
  PyStr.strip (text (col cols 0)) = "" ->
  current_record st = Some key ->
  process_row cols st = continuation key cols st.
Proof.
  intros Hlen H0 Hcur. unfold process_row.
  destruct (Nat.ltb_spec (List.length cols) 10) as [?|_]; [lia|].
  now rewrite H0, Hcur.
Qed.

(** C10.  A continuation row (ten cells or more, the first one empty, a
    current record present) changes at most the days, hours and rooms of
    the one record that the current-record pointer names: the pointer, the
    set of keys and every other record stay as they were, and so do the
    code, name, credits, ects, instructor and requiredForDept of that
    record; this holds whether the row is processed to the end or an
    exception stops it. *)
Theorem continuation_row_frame (cols : row) (st : scan_state) (key : string) :
  (10 <= List.length cols)%nat ->
  PyStr.strip (text (col cols 0)) = "" ->
  current_record st = Some key ->
  let st' := fst (process_row cols st) in
  last_course_key st = Some key
  /\ last_course_key st' = Some key
  /\ dom (results st') = dom (results st)
  /\ (forall k, k <> key -> results st' !! k = results st !! k)
  /\ exists c c',
       results st !! key = Some c /\ results st' !! key = Some c'
       /\ code c' = code c /\ name c' = name c /\ credits c' = credits c
       /\ ects c' = ects c /\ instructor c' = instructor c
       /\ requiredForDept c' = requiredForDept c.
Proof.
  intros Hlen H0 Hcur st'. subst st'.
  rewrite (process_row_continuation _ _ _ Hlen H0 Hcur).
  apply current_record_Some in Hcur as (Hl & _ & Hin).
  destruct (keeps_continuation key cols st Hin) as (Hl' & Hrest).
  split; [exact Hl|]. split; [congruence|]. exact Hrest.
Qed.

Lemma continuation_row_frame_witness :
  let st := fst (process_row row_A initial_state) in
  dom (results (fst (process_row row_B st))) = dom (results st).
Proof.
  intros st.
  assert (H10 : (10 <= List.length row_B)%nat) by (simpl; lia).
  destruct (continuation_row_frame row_B st "CMPE150" H10 eq_refl eq_refl)
    as (_ & _ & H & _).
  exact H.
Defined.

(** ** Where the code leaves the specification *)

(** C2.  A continuation row after a record that was created from a row
    with empty days and hours cells: the record has no days list, the
    attempt to extend it raises [KeyError], nothing is appended, and the
    handler of the department loop drops the rows that follow. *)
Theorem continuation_without_days_raises :
  let st := fst (process_row row_A_unscheduled initial_state) in
  results st = {[ "CMPE150" := record_A None None ["101"] ]}
  /\ current_record st = Some "CMPE150"
  /\ process_row row_B st = (st, Raise (KeyError "days"))
  /\ results (scrape_pages
                [{| url := "sch.asp?kisaadi=CMPE";
                    table := Some [header; row_A_unscheduled; row_B; row_C] |}])
     = {[ "CMPE150" := record_A None None ["101"] ]}.
Proof. intros st. repeat split; vm_compute; reflexivity. Qed.

(** C3.  A continuation row at the top of the second department page:
    [last_course_key] still names the record of the first page, and the
    row is appended to that record. *)
Theorem continuation_crosses_departments :
  let p1 := {| url := "sch.asp?kisaadi=CMPE"; table := Some [header; row_A] |} in
  let p2 := {| url := "sch.asp?kisaadi=MATH"; table := Some [header; row_B] |} in
  scrape_pages [p1]
  = {| results := {[ "CMPE150" := record_A (Some ["M"; "W"]) (Some ["9"; "10"])
                                           ["101"] ]};
       last_course_key := Some "CMPE150" |}
  /\ scrape_pages [p1; p2]
     = {| results := {[ "CMPE150" := record_A (Some ["M"; "W"; "F"])
                                              (Some ["9"; "10"; "11"])
                                              ["101"; "102"] ]};
          last_course_key := Some "CMPE150" |}.
Proof. intros p1 p2. split; vm_compute; reflexivity. Qed.

(** C9.  The semester selector is not found after the browser has started:
    [fetch_semesters_from_website] quits the driver and raises the
    exception to its caller, no message about the semester list is
    printed, and the script ends with the traceback. *)
Theorem fetch_semesters_raises :
  fetch_semesters_from_website no_selector {| stdout := []; quit_calls := 0 |}
  = ({| stdout := [Text "Using Chrome WebDriver."]; quit_calls := 1 |},
     Raise NoSuchElementException)
  /\ forall stdin,
       main no_selector stdin
       = ({| stdout := [Text "Using Chrome WebDriver."]; quit_calls := 1 |},
          Traceback NoSuchElementException).
Proof. split; [|intros stdin]; reflexivity. Qed.

(** ** New records: the key and the rooms *)

Section NewRecord.

Import PyStr.

Lemma replace_spaces (s : string) : replace " " "" s = remove_spaces s.
Proof.
  unfold replace. induction s as [|c s IH]; [reflexivity|].
  cbn [replace_from startswith String.length Nat.sub remove_spaces].
  rewrite andb_true_r, Ascii.eqb_sym, IH.
  destruct (Ascii.eqb c " "); reflexivity.
Qed.

Lemma remove_whitespace_lstrip (s : string) :
  Spec.remove_whitespace (lstrip s) = Spec.remove_whitespace s.
Proof.
  induction s as [|c s IH]; [reflexivity|]. simpl.
  destruct (isspace c) eqn:Hc; [exact IH|]. simpl. now rewrite Hc.
Qed.

Lemma remove_whitespace_rstrip (s : string) :
  Spec.remove_whitespace (rstrip s) = Spec.remove_whitespace s.
Proof.
  induction s as [|c s IH]; [reflexivity|].
  destruct (rstrip_cases c s) as [(Hc & Hs & ->) | ->].
  - simpl. now rewrite Hc, <- IH, Hs.
  - simpl. now rewrite IH.
Qed.

Lemma remove_whitespace_strip (s : string) :
  Spec.remove_whitespace (strip s) = Spec.remove_whitespace s.
Proof.
  unfold strip. now rewrite remove_whitespace_rstrip, remove_whitespace_lstrip.
Qed.

Lemma remove_spaces_plain (s : string) :
  plain_spaces s = true -> remove_spaces s = Spec.remove_whitespace s.
Proof.
  induction s as [|c s IH]; [reflexivity|]. simpl. intros H.
  apply andb_prop in H as [Hc Hs]. rewrite (IH Hs).
  destruct (Ascii.eqb_spec c " ") as [->|Hne]; [reflexivity|].
  rewrite orb_false_r in Hc. apply negb_true_iff in Hc. now rewrite Hc.
Qed.

Lemma new_record_run (course_code_raw : string) (cols : row) (st : scan_state) :
  let key := make_key course_code_raw (strip (text (col cols 2)))
               (replace " " "" (strip (text (col cols 1)))) in
  new_record course_code_raw cols st
  = ({| results := <[key := built course_code_raw cols]> (results st);
        last_course_key := Some key |}, Ok tt).
Proof.
  unfold new_record, bind, lift, set_last_course_key, put_record.
  rewrite parse_credits_value, parse_ects_value. reflexivity.
Qed.

Lemma process_row_new (cols : row) (st : scan_state) :
  (10 <= List.length cols)%nat ->
  truthy (strip (text (col cols 0))) = true ->
  process_row cols st = new_record (strip (text (col cols 0))) cols st.
Proof.
  intros Hlen H0. unfold process_row.
  destruct (Nat.ltb_spec (List.length cols) 10) as [?|_]; [lia|].
  now rewrite H0.
Qed.

End NewRecord.

Section Markers.

Import PyStr.

Local Ltac each_char c := destruct c as [[] [] [] [] [] [] [] []].

(** One character of the name against a letter of a marker: its capital
    begins with the letter exactly when the two are the same letter. *)
Lemma upper_step (a : ascii) (p : string) (c : ascii) (x : string) :
  a ∈ ["L"; "A"; "B"; "P"; "."]%char ->
  startswith (String a p) (upper_char c ++ x)
  = Spec.same_letter a c && startswith p x.
Proof.
  rewrite !elem_of_cons, elem_of_nil.
  intros [->|[->|[->|[->|[->|[]]]]]]; each_char c; reflexivity.
Qed.

(** The same for the S of "P.S.": the two letters SS that U+00DF turns
    into are not an S before a full stop. *)
Lemma upper_step_S (p : string) (c : ascii) (x : string) :
  startswith (String "S" (String "." p)) (upper_char c ++ x)
  = Spec.same_letter "S" c && startswith (String "." p) x.
Proof. each_char c; reflexivity. Qed.

Lemma upper_contains_step (a : ascii) (p : string) (c : ascii) (x : string) :
  a ∈ ["L"; "P"]%char ->
  contains (String a p) (upper_char c ++ x)
  = startswith (String a p) (upper_char c ++ x) || contains (String a p) x.
Proof.
  rewrite !elem_of_cons, elem_of_nil.
  intros [->|[->|[]]]; each_char c; reflexivity.
Qed.

Lemma startswith_LAB (t : string) :
  startswith "LAB" (upper t) = Spec.startswith_nocase "LAB" t.
Proof.
  destruct t as [|c1 [|c2 [|c3 t]]]; cbn [upper Spec.startswith_nocase];
    rewrite ?upper_step by (rewrite !elem_of_cons; auto 10);
    try reflexivity;
    repeat match goal with
           | |- context [Spec.same_letter ?a ?c] =>
               destruct (Spec.same_letter a c)
           end; reflexivity.
Qed.

Lemma startswith_PS (t : string) :
  startswith "P.S." (upper t) = Spec.startswith_nocase "P.S." t.
Proof.
  destruct t as [|c1 [|c2 [|c3 [|c4 t]]]]; cbn [upper Spec.startswith_nocase];
    rewrite ?upper_step by (rewrite !elem_of_cons; auto 10);
    rewrite ?upper_step_S;
    rewrite ?upper_step by (rewrite !elem_of_cons; auto 10);
    try reflexivity;
    repeat match goal with
           | |- context [Spec.same_letter ?a ?c] =>
               destruct (Spec.same_letter a c)
           end; reflexivity.
Qed.

(** [marker in name.upper()] is the search for the marker with the case
    of letters set aside. *)
Lemma contains_LAB (s : string) :
  contains "LAB" (upper s) = Spec.contains_nocase "LAB" s.
Proof.
  induction s as [|c s IH]; [reflexivity|].
  cbn [Spec.contains_nocase]. rewrite <- IH, <- startswith_LAB.
  cbn [upper]. apply upper_contains_step. rewrite !elem_of_cons. auto.
Qed.

Lemma contains_PS (s : string) :
  contains "P.S." (upper s) = Spec.contains_nocase "P.S." s.
Proof.
  induction s as [|c s IH]; [reflexivity|].
  cbn [Spec.contains_nocase]. rewrite <- IH, <- startswith_PS.
  cbn [upper]. apply upper_contains_step. rewrite !elem_of_cons. auto.
Qed.

End Markers.

(** C7, as the code has it.  A row of ten cells or more whose first cell is
    not empty stores a record and makes its key the current one.  The key
    is the stripped course code with its space characters removed, followed
    by "." and the stripped section with its space characters removed when
    the name contains "LAB" or "P.S.", the case of letters set aside, and
    that section is not empty.  Where the stripped code and section hold no
    white space other than spaces this is the key of section 4.4; the two
    lab rows with the sections A and B get the keys CMPE150.A and
    CMPE150.B, and markers in small letters count as well. *)
Theorem new_record_key (cols : row) (st : scan_state) :
  (10 <= List.length cols)%nat ->
  PyStr.truthy (PyStr.strip (text (col cols 0))) = true ->
  let code_raw := PyStr.strip (text (col cols 0)) in
  let name_raw := PyStr.strip (text (col cols 2)) in
  let section_raw := PyStr.strip (text (col cols 1)) in
  let marked := Spec.contains_nocase "LAB" name_raw
                || Spec.contains_nocase "P.S." name_raw in
  let key := if marked && PyStr.truthy (remove_spaces section_raw)
             then remove_spaces code_raw ++ "." ++ remove_spaces section_raw
             else remove_spaces code_raw in
  (exists c,
      process_row cols st
      = ({| results := <[key := c]> (results st);
            last_course_key := Some key |}, Ok tt)
      /\ code c = code_raw /\ name c = name_raw)
  /\ (plain_spaces code_raw = true -> plain_spaces section_raw = true ->
      key = Spec.key (text (col cols 0)) name_raw (text (col cols 1)))
  /\ dom (results (fst (scan_rows [lab_row "A"; lab_row "B"] initial_state)))
     = {[ "CMPE150.A"; "CMPE150.B" ]}
  /\ dom (results (fst (scan_rows [small_lab_row; small_ps_row] initial_state)))
     = {[ "PHYS101.01"; "MATH101.02" ]}.
Proof.
  intros Hlen H0 code_raw name_raw section_raw marked key.
  split; [|split; [|split]].
  - exists (built code_raw cols).
    rewrite (process_row_new _ _ Hlen H0), new_record_run.
    fold code_raw name_raw section_raw. unfold make_key.
    rewrite !replace_spaces, contains_LAB, contains_PS. fold marked.
    split; [|split; reflexivity].
    subst key. destruct marked; reflexivity.
  - intros Hc Hs. subst key. unfold Spec.key.
    rewrite <- (remove_whitespace_strip (text (col cols 0))).
    rewrite <- (remove_whitespace_strip (text (col cols 1))).
    fold code_raw section_raw marked.
    now rewrite (remove_spaces_plain _ Hc), (remove_spaces_plain _ Hs).
  - vm_compute. reflexivity.
  - vm_compute. reflexivity.
Qed.

Lemma new_record_key_witness :
  exists c,
    process_row small_ps_row initial_state
    = ({| results := <[ "MATH101.02" := c ]> ∅;
          last_course_key := Some "MATH101.02" |}, Ok tt).
Proof.
  assert (H10 : (10 <= List.length small_ps_row)%nat) by (simpl; lia).
  destruct (new_record_key small_ps_row initial_state H10 eq_refl)
    as [(c & Hrun & _) _].
  exists c. exact Hrun.
Defined.

(** C7 as the specification words it fails on a code cell that shows two
    lines: the line break stays in the key, while the code with its white
    space removed is CMPE150. *)
Lemma key_keeps_line_break :
  last_course_key (fst (process_row two_line_row initial_state))
  = Some two_line_code
  /\ Spec.key two_line_code "Intro to Computing" "01" = "CMPE150"
  /\ two_line_code <> "CMPE150".
Proof. repeat split; try reflexivity. discriminate. Qed.

(** C4.  A rooms cell that shows no text and holds one child element whose
    text is empty: no child text is left, which by section 4.3 calls for
    the one room "N/A", and the record is stored with no room at all.  The
    same row without the child element does get "N/A". *)
Theorem empty_child_gives_no_room :
  rooms <$> results (fst (process_row (row_with_children [""]) initial_state))
              !! "CMPE150"
  = Some []
  /\ Spec.fallback_rooms [""] = ["N/A"]
  /\ rooms <$> results (fst (process_row (row_with_children []) initial_state))
                 !! "CMPE150"
     = Some ["N/A"].
Proof. repeat split; vm_compute; reflexivity. Qed.

(** ** Continuation rows: when they append and when they raise *)

Section Continuation.

Variables (key : string) (cols : row).

Lemma days_step (st : scan_state) (c : course) (d : list string) :
  results st !! key = Some c -> days c = Some d ->
  exists st' c',
    when (PyStr.truthy (PyStr.strip (text (col cols 7))))
         (extend_days key (parse_days (text (col cols 7)))) st = (st', Ok tt)
    /\ results st' !! key = Some c'
    /\ days c' = Some (if PyStr.truthy (PyStr.strip (text (col cols 7)))
                       then d ++ parse_days (text (col cols 7)) else d)%list
    /\ hours c' = hours c.
Proof.
  intros Hc Hd. unfold when.
  destruct (PyStr.truthy (PyStr.strip (text (col cols 7)))).
  - unfold extend_days, bind, get_record. rewrite Hc, Hd.
    eexists _, _. split; [reflexivity|].
    split; [apply lookup_insert_eq | repeat split].
  - exists st, c. repeat split; assumption.
Qed.

Lemma hours_step (st : scan_state) (c : course) (h : list string) :
  results st !! key = Some c -> hours c = Some h ->
  exists st' c',
    when (PyStr.truthy (PyStr.strip (text (col cols 8))))
         (extend_hours key (parse_hours (text (col cols 8)))) st = (st', Ok tt)
    /\ results st' !! key = Some c'
    /\ hours c' = Some (if PyStr.truthy (PyStr.strip (text (col cols 8)))
                        then h ++ parse_hours (text (col cols 8)) else h)%list
    /\ days c' = days c.
Proof.
  intros Hc Hh. unfold when.
  destruct (PyStr.truthy (PyStr.strip (text (col cols 8)))).
  - unfold extend_hours, bind, get_record. rewrite Hc, Hh.
    eexists _, _. split; [reflexivity|].
    split; [apply lookup_insert_eq | repeat split].
  - exists st, c. repeat split; assumption.
Qed.

Lemma rooms_step (st : scan_state) (c : course) :
  results st !! key = Some c ->
  exists st' c',
    more_rooms key (col cols 9) st = (st', Ok tt)
    /\ results st' !! key = Some c'
    /\ days c' = days c /\ hours c' = hours c.
Proof.
  intros Hc.
  assert (Hext : forall xs, exists st' c',
             extend_rooms key xs st = (st', Ok tt)
             /\ results st' !! key = Some c'
             /\ days c' = days c /\ hours c' = hours c).
  { intros xs. unfold extend_rooms, bind, get_record. rewrite Hc.
    eexists _, _. split; [reflexivity|].
    split; [apply lookup_insert_eq | repeat split]. }
  unfold more_rooms.
  destruct (PyStr.contains _ _); [apply Hext|].
  destruct (PyStr.truthy _); [apply Hext|].
  destruct (spans (col cols 9)); [|apply Hext].
  exists st, c. repeat split; assumption.
Qed.

(** A continuation row met while the current record has a days list and an
    hours list is processed to the end, and each list grows by what the
    row's cell holds. *)
Lemma continuation_appends (st : scan_state) (c : course) (d h : list string) :
  (10 <= List.length cols)%nat ->
  PyStr.strip (text (col cols 0)) = "" ->
  current_record st = Some key ->
  results st !! key = Some c -> days c = Some d -> hours c = Some h ->
  exists st' c',
    process_row cols st = (st', Ok tt)
    /\ results st' !! key = Some c'
    /\ days c' = Some (if PyStr.truthy (PyStr.strip (text (col cols 7)))
                       then d ++ parse_days (text (col cols 7)) else d)%list
    /\ hours c' = Some (if PyStr.truthy (PyStr.strip (text (col cols 8)))
                        then h ++ parse_hours (text (col cols 8)) else h)%list.
Proof.
  intros Hlen H0 Hcur Hc Hd Hh.
  rewrite (process_row_continuation _ _ _ Hlen H0 Hcur).
  destruct (days_step st c d Hc Hd) as (st1 & c1 & R1 & Hc1 & Hd1 & Hh1).
  rewrite Hh in Hh1.
  destruct (hours_step st1 c1 h Hc1 Hh1) as (st2 & c2 & R2 & Hc2 & Hh2 & Hd2).
  destruct (rooms_step st2 c2 Hc2) as (st3 & c3 & R3 & Hc3 & Hd3 & Hh3).
  exists st3, c3. unfold continuation, bind.
  rewrite R1, R2, R3.
  repeat split; [assumption | congruence | congruence].
Qed.

(** A continuation row with days to add, met while the current record has
    no days list, raises [KeyError] and changes nothing. *)
Lemma continuation_needs_days (st : scan_state) (c : course) :
  (10 <= List.length cols)%nat ->
  PyStr.strip (text (col cols 0)) = "" ->
  current_record st = Some key ->
  results st !! key = Some c -> days c = None ->
  PyStr.truthy (PyStr.strip (text (col cols 7))) = true ->
  process_row cols st = (st, Raise (KeyError "days")).
Proof.
  intros Hlen H0 Hcur Hc Hd H7.
  rewrite (process_row_continuation _ _ _ Hlen H0 Hcur).
  unfold continuation, bind, when. rewrite H7.
  unfold extend_days, bind, get_record. now rewrite Hc, Hd.
Qed.

End Continuation.

(** * Further properties of the code *)

(** ** The parsers *)

Section Parsers.

Import PyStr PyRe.

Lemma lstrip_head (s : string) (c : ascii) (t : string) :
  lstrip s = String c t -> isspace c = false.
Proof.
  induction s as [|a s IH]; simpl; [discriminate|].
  destruct (isspace a) eqn:Ha; [exact IH|]. now intros [= <- <-].
Qed.

Lemma rstrip_head (s : string) (c : ascii) (t : string) :
  rstrip s = String c t -> exists t', s = String c t'.
Proof.
  destruct s as [|a s]; [discriminate|].
  destruct (rstrip_cases a s) as [(_ & _ & ->) | ->]; [discriminate|].
  intros [= -> _]. eauto.
Qed.

(** A stripped text that is not empty begins with a character that is not
    white space. *)
Lemma strip_head (s : string) (c : ascii) (t : string) :
  strip s = String c t -> isspace c = false.
Proof.
  unfold strip. intros H. destruct (rstrip_head _ _ _ H) as [t' Ht'].
  eapply lstrip_head, Ht'.
Qed.

Lemma rstrip_idempotent (s : string) : rstrip (rstrip s) = rstrip s.
Proof.
  induction s as [|c s IH]; [reflexivity|].
  destruct (rstrip_cases c s) as [(_ & _ & ->) | E]; [reflexivity|].
  rewrite E. destruct (rstrip_cases c (rstrip s)) as [(Hc & Hs & _) | ->].
  - rewrite IH in Hs. simpl in E. rewrite Hs, Hc in E. discriminate.
  - now rewrite IH.
Qed.

Lemma lstrip_nonspace (s : string) :
  match s with String c _ => isspace c = false | EmptyString => True end ->
  lstrip s = s.
Proof. destruct s as [|c s]; [reflexivity|]. simpl. now intros ->. Qed.

Lemma strip_idempotent (s : string) : strip (strip s) = strip s.
Proof.
  unfold strip at 1. rewrite lstrip_nonspace.
  - unfold strip. apply rstrip_idempotent.
  - destruct (strip s) eqn:E; [exact I|]. eapply strip_head, E.
Qed.

Lemma split_head (sep : ascii) (s : string) : split sep s <> [].
Proof.
  destruct s as [|c s]; simpl; [discriminate|].
  destruct (Ascii.eqb c sep); [discriminate|].
  destruct (split sep s); discriminate.
Qed.

Lemma split_no_separator (sep : ascii) (s : string) :
  Forall (fun item => contains (String sep "") item = false) (split sep s).
Proof.
  induction s as [|c s IH]; simpl.
  - repeat constructor.
  - destruct (Ascii.eqb_spec c sep) as [->|Hne].
    + constructor; [reflexivity | exact IH].
    + destruct (split sep s) as [|h t]; [repeat constructor; simpl|].
      * destruct (Ascii.eqb_spec sep c); [congruence | reflexivity].
      * inversion IH as [|? ? Hh Ht]; subst. constructor; [|exact Ht].
        simpl. destruct (Ascii.eqb_spec sep c); [congruence|]. exact Hh.
Qed.

Lemma truthy_nonempty (s : string) : truthy s = true <-> s <> "".
Proof. destruct s; simpl; split; congruence. Qed.

Lemma parse_list_items_plain (s : string) :
  Forall (fun item => item <> "" /\ contains (String newline "") item = false)
         (parse_list_of_strings s).
Proof.
  unfold parse_list_of_strings.
  destruct (negb (truthy s) || negb (truthy (strip s))); [constructor|].
  apply List.Forall_forall. intros item Hin.
  apply List.filter_In in Hin as [Hin Ht].
  split; [now apply truthy_nonempty|].
  pose proof (split_no_separator newline (strip s)) as Hall.
  rewrite List.Forall_forall in Hall. now apply Hall.
Qed.

Lemma parse_list_empty_iff (s : string) :
  parse_list_of_strings s = [] <-> strip s = "".
Proof.
  unfold parse_list_of_strings.
  destruct s as [|a s]; [split; reflexivity|].
  cbn [truthy negb orb].
  destruct (strip (String a s)) as [|c t] eqn:E; [split; reflexivity|].
  cbn [truthy negb]. split; [|discriminate]. intros Hnil. exfalso.
  pose proof (strip_head _ _ _ E) as Hc.
  cbn [split] in Hnil.
  destruct (Ascii.eqb_spec c newline) as [->|_]; [discriminate Hc|].
  destruct (split newline t); discriminate Hnil.
Qed.

(** X1.  Every item that [parse_list_of_strings] returns is non-empty and
    holds no newline, and the list is empty exactly when the input is
    empty or white space only. *)
Theorem parse_list_of_strings_items (s : string) :
  Forall (fun item => item <> "" /\ contains (String newline "") item = false)
         (parse_list_of_strings s)
  /\ (parse_list_of_strings s = [] <-> strip s = "").
Proof. split; [apply parse_list_items_plain | apply parse_list_empty_iff]. Qed.

Lemma findall_from_matches (r : regex) (P : string -> Prop) :
  (forall s m, match_prefix r s = Some m -> P m) ->
  forall s k, Forall P (findall_from r k s).
Proof.
  intros HP. induction s as [|c s IH]; intros k; simpl; [constructor|].
  destruct k as [|k]; [|apply IH].
  destruct (match_prefix r (String c s)) eqn:E; [|apply IH].
  constructor; [eapply HP, E | apply IH].
Qed.

Lemma days_pattern_token (s m : string) :
  match_prefix days_pattern s = Some m -> m ∈ Spec.day_tokens.
Proof.
  unfold days_pattern, Spec.day_tokens. cbn [match_prefix].
  repeat (match goal with
          | |- context [if ?b then _ else _] => destruct b
          end; [intros [= <-]; rewrite !elem_of_cons; auto 20|]).
  discriminate.
Qed.

Lemma hours_pattern_token (s m : string) :
  match_prefix hours_pattern s = Some m -> m ∈ Spec.hour_tokens.
Proof.
  unfold hours_pattern, Spec.hour_tokens. cbn [match_prefix].
  destruct (startswith "10" s); [intros [= <-]; rewrite !elem_of_cons; auto 20|].
  destruct (startswith "11" s); [intros [= <-]; rewrite !elem_of_cons; auto 20|].
  destruct s as [|c s]; [discriminate|].
  rewrite list_elem_of_In.
  destruct c as [[] [] [] [] [] [] [] []]; vm_compute; try discriminate;
    intros [= <-]; auto 20.
Qed.

(** X2.  Whatever the input, [parse_days] returns day tokens only and
    [parse_hours] returns hour tokens only. *)
Theorem parsers_return_tokens (s : string) :
  Forall (fun t => t ∈ Spec.day_tokens) (parse_days s)
  /\ Forall (fun t => t ∈ Spec.hour_tokens) (parse_hours s).
Proof.
  rewrite parse_days_findall, parse_hours_findall. unfold findall. split.
  - apply findall_from_matches, days_pattern_token.
  - apply findall_from_matches, hours_pattern_token.
Qed.

End Parsers.

(** ** Reading back what was written with the tokens *)

Section RoundTrip.

Import PyStr PyRe.

Lemma drop_app (t rest : string) :
  Spec.drop (String.length t) (t ++ rest) = rest.
Proof. induction t as [|c t IH]; [now destruct rest | exact IH]. Qed.

Lemma findall_token (r : regex) (t rest : string) :
  t <> "" -> match_prefix r (t ++ rest) = Some t ->
  findall r (t ++ rest) = t :: findall r rest.
Proof.
  destruct t as [|c t]; [congruence|]. intros _ Hm. unfold findall.
  change (String c t ++ rest) with (String c (t ++ rest)) in *.
  cbn [findall_from]. rewrite Hm. f_equal.
  cbn [String.length]. rewrite Nat.sub_1_r; cbn [Nat.pred].
  rewrite findall_from_drop. now rewrite drop_app.
Qed.

Lemma day_token_cases (t : string) :
  t ∈ Spec.day_tokens ->
  t = "Th" \/ t = "W" \/ t = "M" \/ t = "F" \/ t = "T" \/ t = "S".
Proof.
  unfold Spec.day_tokens. rewrite !elem_of_cons, elem_of_nil. tauto.
Qed.

Lemma hour_token_cases (t : string) :
  t ∈ Spec.hour_tokens ->
  t = "10" \/ t = "11" \/ t = "1" \/ t = "2" \/ t = "3" \/ t = "4"
  \/ t = "5" \/ t = "6" \/ t = "7" \/ t = "8" \/ t = "9".
Proof.
  unfold Spec.hour_tokens. rewrite !elem_of_cons, elem_of_nil. tauto.
Qed.

Lemma glue_days_head (ts : list string) :
  Forall (fun t => t ∈ Spec.day_tokens) ts ->
  startswith "h" (glue ts) = false.
Proof.
  destruct ts as [|t ts]; [reflexivity|]. intros H.
  inversion H as [|? ? Ht _]; subst.
  apply day_token_cases in Ht.
  destruct Ht as [->|[->|[->|[->|[->| ->]]]]]; reflexivity.
Qed.

Lemma glue_hours_head (ts : list string) :
  Forall (fun t => t ∈ Spec.hour_tokens) ts ->
  startswith "0" (glue ts) = false.
Proof.
  destruct ts as [|t ts]; [reflexivity|]. intros H.
  inversion H as [|? ? Ht _]; subst.
  apply hour_token_cases in Ht.
  destruct Ht as [->|[->|[->|[->|[->|[->|[->|[->|[->|[->| ->]]]]]]]]]];
    reflexivity.
Qed.

Lemma days_pattern_reads_token (t : string) (ts : list string) :
  t ∈ Spec.day_tokens -> Forall (fun t => t ∈ Spec.day_tokens) ts ->
  match_prefix days_pattern (t ++ glue ts) = Some t.
Proof.
  intros Ht Hts. pose proof (glue_days_head ts Hts) as Hh.
  apply day_token_cases in Ht.
  destruct Ht as [->|[->|[->|[->|[->| ->]]]]]; try reflexivity.
  change ("T" ++ glue ts) with (String "T" (glue ts)).
  unfold days_pattern. cbn [match_prefix].
  change (startswith "Th" (String "T" (glue ts)))
    with (startswith "h" (glue ts)).
  now rewrite Hh.
Qed.

Lemma hours_pattern_reads_token (t : string) (ts : list string) :
  t ∈ Spec.hour_tokens -> Forall (fun t => t ∈ Spec.hour_tokens) ts ->
  separable (t :: ts) = true ->
  match_prefix hours_pattern (t ++ glue ts) = Some t.
Proof.
  intros Ht Hts Hsep. pose proof (glue_hours_head ts Hts) as H0.
  apply hour_token_cases in Ht.
  destruct Ht as [->|[->|[->|[->|[->|[->|[->|[->|[->|[->| ->]]]]]]]]]];
    try reflexivity.
  change ("1" ++ glue ts) with (String "1" (glue ts)).
  unfold hours_pattern. cbn [match_prefix].
  change (startswith "10" (String "1" (glue ts)))
    with (startswith "0" (glue ts)).
  change (startswith "11" (String "1" (glue ts)))
    with (startswith "1" (glue ts)).
  rewrite H0.
  assert (H1 : startswith "1" (glue ts) = false).
  { destruct ts as [|t' ts]; [reflexivity|].
    cbn [separable] in Hsep. apply andb_prop in Hsep as [Hsep _].
    apply negb_true_iff in Hsep. cbn [String.eqb Ascii.eqb Bool.eqb andb] in Hsep.
    inversion Hts as [|? ? Ht' _]; subst.
    apply hour_token_cases in Ht'.
    destruct Ht' as [->|[->|[->|[->|[->|[->|[->|[->|[->|[->| ->]]]]]]]]]];
      try reflexivity; discriminate Hsep. }
  rewrite H1. reflexivity.
Qed.

Lemma separable_tail (t : string) (ts : list string) :
  separable (t :: ts) = true -> separable ts = true.
Proof.
  destruct ts as [|t' ts]; [reflexivity|]. cbn [separable].
  intros H. now apply andb_prop in H as [_ H].
Qed.

(** X3.  Day tokens written one after the other are read back as they
    were written: the text of the days column is unambiguous. *)
Theorem parse_days_round_trip (ts : list string) :
  Forall (fun t => t ∈ Spec.day_tokens) ts -> parse_days (glue ts) = ts.
Proof.
  intros Hts. rewrite parse_days_findall.
  rewrite findall_strip by apply days_pattern_solid.
  induction Hts as [|t ts Ht Hts IH]; [reflexivity|].
  cbn [glue]. rewrite findall_token.
  - now rewrite IH.
  - apply day_token_cases in Ht.
    destruct Ht as [->|[->|[->|[->|[->| ->]]]]]; discriminate.
  - now apply days_pattern_reads_token.
Qed.

Lemma parse_days_round_trip_witness :
  parse_days (glue ["T"; "Th"; "S"]) = ["T"; "Th"; "S"].
Proof.
  apply parse_days_round_trip. repeat constructor; rewrite !elem_of_cons; auto 20.
Defined.

(** X4.  Hour tokens written one after the other are read back as they
    were written, provided no "1" stands right before a token that begins
    with "1". *)
Theorem parse_hours_round_trip (ts : list string) :
  Forall (fun t => t ∈ Spec.hour_tokens) ts -> separable ts = true ->
  parse_hours (glue ts) = ts.
Proof.
  intros Hts. rewrite parse_hours_findall.
  rewrite findall_strip by apply hours_pattern_solid.
  induction Hts as [|t ts Ht Hts IH]; intros Hsep; [reflexivity|].
  cbn [glue]. rewrite findall_token.
  - rewrite IH; [reflexivity|]. eapply separable_tail, Hsep.
  - apply hour_token_cases in Ht.
    destruct Ht as [->|[->|[->|[->|[->|[->|[->|[->|[->|[->| ->]]]]]]]]]];
      discriminate.
  - now apply hours_pattern_reads_token.
Qed.

Lemma parse_hours_round_trip_witness :
  parse_hours (glue ["1"; "2"; "10"; "11"]) = ["1"; "2"; "10"; "11"].
Proof.
  apply parse_hours_round_trip; [repeat constructor; rewrite !elem_of_cons; auto 20 | reflexivity].
Defined.

End RoundTrip.

(** ** What the row loop keeps *)

Section RowLoop.

Lemma scan_rows_cons (cols : row) (rest : list row) (st : scan_state) :
  scan_rows (cols :: rest) st
  = match process_row cols st with
    | (st', Ok _) => scan_rows rest st'
    | (st', Raise e) => (st', Raise e)
    end.
Proof. reflexivity. Qed.

(** The three ways a row is treated. *)
Lemma process_row_cases (cols : row) (st : scan_state) :
  process_row cols st = (st, Ok tt)
  \/ (exists key, (10 <= List.length cols)%nat
                  /\ PyStr.strip (text (col cols 0)) = ""
                  /\ current_record st = Some key
                  /\ process_row cols st = continuation key cols st)
  \/ ((10 <= List.length cols)%nat
      /\ PyStr.truthy (PyStr.strip (text (col cols 0))) = true
      /\ process_row cols st
         = new_record (PyStr.strip (text (col cols 0))) cols st).
Proof.
  unfold process_row.
  destruct (Nat.ltb_spec (List.length cols) 10) as [?|Hlen]; [now left|].
  destruct (PyStr.strip (text (col cols 0))) as [|a t] eqn:H0;
    [|right; right; auto].
  cbn [PyStr.truthy].
  destruct (current_record st) as [key|]; [|now left].
  right; left. exists key. auto.
Qed.

(** A relation that every row respects is respected by the loop. *)
Lemma scan_rows_steps (R : scan_state -> scan_state -> Prop) :
  (forall st, R st st) ->
  (forall st1 st2 st3, R st1 st2 -> R st2 st3 -> R st1 st3) ->
  (forall cols st, R st (fst (process_row cols st))) ->
  forall rows st, R st (fst (scan_rows rows st)).
Proof.
  intros Hrefl Htrans Hstep. induction rows as [|cols rest IH]; intros st.
  - apply Hrefl.
  - rewrite scan_rows_cons. specialize (Hstep cols st).
    destruct (process_row cols st) as [st' [[]|e]]; simpl in *.
    + eapply Htrans; [exact Hstep | apply IH].
    + exact Hstep.
Qed.

Lemma scrape_department_steps (R : scan_state -> scan_state -> Prop) :
  (forall st, R st st) ->
  (forall st1 st2 st3, R st1 st2 -> R st2 st3 -> R st1 st3) ->
  (forall cols st, R st (fst (process_row cols st))) ->
  forall p st, R st (scrape_department p st).
Proof.
  intros Hrefl Htrans Hstep p st. unfold scrape_department.
  destruct (table p); [now apply scan_rows_steps | apply Hrefl].
Qed.

Lemma scrape_pages_app (ps qs : list page) :
  scrape_pages (ps ++ qs)
  = fold_left (fun st p => scrape_department p st) qs (scrape_pages ps).
Proof. unfold scrape_pages. apply fold_left_app. Qed.

Lemma fold_departments_steps (R : scan_state -> scan_state -> Prop) :
  (forall st, R st st) ->
  (forall st1 st2 st3, R st1 st2 -> R st2 st3 -> R st1 st3) ->
  (forall cols st, R st (fst (process_row cols st))) ->
  forall ps st, R st (fold_left (fun st p => scrape_department p st) ps st).
Proof.
  intros Hrefl Htrans Hstep. induction ps as [|p ps IH]; intros st; simpl.
  - apply Hrefl.
  - eapply Htrans; [|apply IH]. now apply scrape_department_steps.
Qed.

(** A property that every row keeps holds of all that a scrape returns. *)
Lemma scrape_pages_invariant (I : scan_state -> Prop) :
  I initial_state ->
  (forall cols st, I st -> I (fst (process_row cols st))) ->
  forall ps, I (scrape_pages ps).
Proof.
  intros H0 Hstep ps. unfold scrape_pages.
  apply (fold_departments_steps (fun st st' => I st -> I st')); auto.
Qed.

Lemma remove_spaces_app (a b : string) :
  remove_spaces (a ++ b) = remove_spaces a ++ remove_spaces b.
Proof.
  induction a as [|c a IH]; [reflexivity|].
  change (String c a ++ b) with (String c (a ++ b)). cbn [remove_spaces].
  rewrite IH. now destruct (Ascii.eqb c " ").
Qed.

Lemma remove_spaces_idempotent (s : string) :
  remove_spaces (remove_spaces s) = remove_spaces s.
Proof.
  induction s as [|c s IH]; [reflexivity|]. cbn [remove_spaces].
  destruct (Ascii.eqb c " ") eqn:E; [exact IH|].
  cbn [remove_spaces]. now rewrite E, IH.
Qed.

Lemma remove_spaces_stripped (s : string) :
  PyStr.strip s <> "" -> remove_spaces (PyStr.strip s) <> "".
Proof.
  destruct (PyStr.strip s) as [|c t] eqn:E; [congruence|]. intros _.
  pose proof (strip_head _ _ _ E) as Hc. cbn [remove_spaces].
  destruct (Ascii.eqb_spec c " ") as [->|_]; [discriminate Hc | discriminate].
Qed.

Lemma startswith_app (p q : string) : PyStr.startswith p (p ++ q) = true.
Proof.
  induction p as [|c p IH]; [now destruct q|].
  change (String c p ++ q) with (String c (p ++ q)). cbn [PyStr.startswith].
  now rewrite Ascii.eqb_refl, IH.
Qed.

Lemma startswith_refl (p : string) : PyStr.startswith p p = true.
Proof.
  induction p as [|c p IH]; [reflexivity|]. cbn [PyStr.startswith].
  now rewrite Ascii.eqb_refl, IH.
Qed.

Lemma app_nonempty (a b : string) : a <> "" -> a ++ b <> "".
Proof. destruct a; [congruence | discriminate]. Qed.

(** The key made for a row whose stripped code is not empty. *)
Lemma make_key_shape (cols : row) :
  let code_raw := PyStr.strip (text (col cols 0)) in
  let key := make_key code_raw (PyStr.strip (text (col cols 2)))
               (PyStr.replace " " "" (PyStr.strip (text (col cols 1)))) in
  PyStr.truthy code_raw = true ->
  key <> "" /\ remove_spaces key = key
  /\ PyStr.startswith (remove_spaces code_raw) key = true.
Proof.
  intros code_raw key H0. subst key. unfold make_key.
  rewrite !replace_spaces. fold code_raw.
  apply truthy_nonempty in H0. pose proof (remove_spaces_stripped _ H0) as Hne.
  fold code_raw in Hne.
  destruct (PyStr.contains "LAB" _ || PyStr.contains "P.S." _);
    [destruct (PyStr.truthy (remove_spaces (PyStr.strip (text (col cols 1)))))|].
  - split; [now apply app_nonempty|]. split; [|apply startswith_app].
    now rewrite !remove_spaces_app, !remove_spaces_idempotent.
  - split; [exact Hne|]. split;
      [apply remove_spaces_idempotent | apply startswith_refl].
  - split; [exact Hne|]. split;
      [apply remove_spaces_idempotent | apply startswith_refl].
Qed.

(** X6.  Records are never removed: the keys found on the first pages are
    still keys after any further pages. *)
Theorem keys_only_grow (ps qs : list page) :
  dom (results (scrape_pages ps)) ⊆ dom (results (scrape_pages (ps ++ qs))).
Proof.
  rewrite scrape_pages_app.
  apply (fold_departments_steps
           (fun st st' => dom (results st) ⊆ dom (results st'))).
  - reflexivity.
  - intros st1 st2 st3 H12 H23. etrans; eassumption.
  - intros cols st.
    destruct (process_row_cases cols st) as [-> | [(key & _ & _ & Hcur & ->) | (_ & _ & ->)]].
    + reflexivity.
    + destruct (current_record_Some _ _ Hcur) as (_ & _ & Hin).
      destruct (keeps_continuation key cols st Hin) as (_ & -> & _).
      reflexivity.
    + rewrite new_record_run. cbn [fst results].
      rewrite dom_insert_L. apply union_subseteq_r.
Qed.

(** X7.  Every key in the results is non-empty and free of space
    characters, and every record under it has a non-empty, stripped code
    whose text without spaces the key begins with. *)
Theorem keys_come_from_codes (ps : list page) :
  map_Forall
    (fun key c =>
       key <> "" /\ remove_spaces key = key
       /\ code c <> "" /\ PyStr.strip (code c) = code c
       /\ PyStr.startswith (remove_spaces (code c)) key = true)
    (results (scrape_pages ps)).
Proof.
  apply (scrape_pages_invariant (fun st => map_Forall _ (results st)));
    [apply map_Forall_empty|].
  intros cols st Hst.
  destruct (process_row_cases cols st) as [-> | [(key & _ & _ & Hcur & ->) | (_ & H0 & ->)]].
  - exact Hst.
  - destruct (current_record_Some _ _ Hcur) as (_ & _ & Hin).
    destruct (keeps_continuation key cols st Hin)
      as (_ & _ & Hother & c & c' & Hc & Hc' & Hcode & _).
    intros k x Hk. destruct (decide (k = key)) as [->|Hne].
    + rewrite Hc' in Hk. injection Hk as <-. rewrite Hcode.
      exact (Hst key c Hc).
    + rewrite (Hother k Hne) in Hk. exact (Hst k x Hk).
  - rewrite new_record_run. cbn [fst results].
    apply map_Forall_insert_2; [|exact Hst].
    destruct (make_key_shape cols H0) as (Hne & Hsp & Hpre).
    cbn [code built]. repeat split; auto using strip_idempotent.
    now apply truthy_nonempty.
Qed.

(** X8.  Rows of fewer than ten cells can be taken out of a table without
    any change to what the loop does. *)
Theorem short_rows_are_dropped (rows : list row) (st : scan_state) :
  scan_rows rows st
  = scan_rows (List.filter (fun cols => (10 <=? List.length cols)%nat) rows) st.
Proof.
  revert st. induction rows as [|cols rest IH]; intros st; [reflexivity|].
  cbn [List.filter]. destruct (Nat.leb_spec 10 (List.length cols)) as [Hlen|Hlen].
  - rewrite !scan_rows_cons.
    destruct (process_row cols st) as [st' [[]|e]]; [apply IH | reflexivity].
  - rewrite scan_rows_cons. unfold process_row at 1.
    destruct (Nat.ltb_spec (List.length cols) 10); [|lia]. apply IH.
Qed.

End RowLoop.

(** ** Rows that start a record *)

Section RowErrors.

(** X11.  Of two rows that start a record under one key the second
    replaces the first: what the loop leaves behind is what the second
    row alone would have left. *)
Theorem later_row_replaces (r1 r2 : row) (st : scan_state) :
  (10 <= List.length r1)%nat -> (10 <= List.length r2)%nat ->
  PyStr.truthy (PyStr.strip (text (col r1 0))) = true ->
  PyStr.truthy (PyStr.strip (text (col r2 0))) = true ->
  row_key r1 = row_key r2 ->
  scan_rows [r1; r2] st = scan_rows [r2] st.
Proof.
  intros L1 L2 H1 H2 Hkey.
  assert (E2 : forall st',
             scan_rows [r2] st'
             = ({| results := <[row_key r2 :=
                                  built (PyStr.strip (text (col r2 0))) r2]>
                                (results st');
                   last_course_key := Some (row_key r2) |}, Ok tt)).
  { intros st'.
    rewrite scan_rows_cons, (process_row_new r2 st' L2 H2), new_record_run.
    reflexivity. }
  rewrite scan_rows_cons, (process_row_new r1 st L1 H1), new_record_run.
  cbn zeta. fold (row_key r1). rewrite Hkey, !E2. cbn [results].
  now rewrite insert_insert_eq.
Qed.

Lemma later_row_replaces_witness :
  scan_rows [row_A; row_A_unscheduled] initial_state
  = scan_rows [row_A_unscheduled] initial_state.
Proof.
  apply later_row_replaces; try reflexivity; simpl; lia.
Defined.

(** X12.  A row that starts a record and whose rooms cell shows text gives
    the record at least one room, and none of its rooms is empty. *)
Theorem rooms_of_shown_text (cols : row) (st : scan_state) :
  (10 <= List.length cols)%nat ->
  PyStr.truthy (PyStr.strip (text (col cols 0))) = true ->
  PyStr.truthy (PyStr.strip (text (col cols 9))) = true ->
  exists key c,
    process_row cols st
    = ({| results := <[key := c]> (results st);
          last_course_key := Some key |}, Ok tt)
    /\ rooms c <> [] /\ Forall (fun r => r <> "") (rooms c).
Proof.
  intros Hlen H0 H9.
  rewrite (process_row_new _ _ Hlen H0), new_record_run.
  eexists _, _. split; [reflexivity|]. cbn [rooms built]. unfold new_rooms.
  destruct (PyStr.contains "Online" _).
  - split; [discriminate | repeat constructor; discriminate].
  - rewrite H9. split.
    + rewrite parse_list_empty_iff, strip_idempotent.
      now apply truthy_nonempty.
    + eapply Forall_impl; [apply parse_list_items_plain|].
      now intros r [Hr _].
Qed.

Lemma rooms_of_shown_text_witness :
  exists key c,
    process_row row_A initial_state
    = ({| results := <[key := c]> ∅; last_course_key := Some key |}, Ok tt)
    /\ rooms c <> [] /\ Forall (fun r => r <> "") (rooms c).
Proof.
  assert (H10 : (10 <= List.length row_A)%nat) by (simpl; lia).
  exact (rooms_of_shown_text row_A initial_state H10 eq_refl eq_refl).
Defined.

End RowErrors.

(** ** Numbers written in decimal are read back *)

Section Decimal.

Lemma rev_app_rev_app (s a b : string) :
  String.rev_app (String.rev_app s a) b = String.rev_app a (s ++ b).
Proof.
  revert a b. induction s as [|c s IH]; intros a b; [reflexivity|].
  cbn [String.rev_app]. now rewrite IH.
Qed.

Lemma append_empty (s : string) : s ++ "" = s.
Proof.
  induction s as [|c s IH]; [reflexivity|].
  change (String c s ++ "") with (String c (s ++ "")). now rewrite IH.
Qed.

Lemma rev_involutive (s : string) : String.rev (String.rev s) = s.
Proof. unfold String.rev. rewrite rev_app_rev_app. apply append_empty. Qed.

Lemma spaceless_rev_app (s a : string) :
  spaceless (String.rev_app s a) = spaceless s && spaceless a.
Proof.
  revert a. induction s as [|c s IH]; intros a; [reflexivity|].
  cbn [String.rev_app spaceless]. rewrite IH. cbn [spaceless].
  destruct (PyStr.isspace c), (spaceless s), (spaceless a); reflexivity.
Qed.

Lemma num_space_is_space (c : ascii) :
  PyNum.isspace c = true -> PyStr.isspace c = true.
Proof. destruct c as [[] [] [] [] [] [] [] []]; vm_compute; congruence. Qed.

Lemma skip_space_spaceless (s : string) :
  spaceless s = true -> PyNum.skip_space s = s.
Proof.
  destruct s as [|c s]; [reflexivity|]. cbn [spaceless PyNum.skip_space].
  intros H. apply andb_prop in H as [Hc _]. apply negb_true_iff in Hc.
  destruct (PyNum.isspace c) eqn:E; [|reflexivity].
  apply num_space_is_space in E. congruence.
Qed.

(** A text that holds no white space is left as it is by the stripping
    that [int] does. *)
Lemma strip_space_spaceless (s : string) :
  spaceless s = true -> PyNum.strip_space s = s.
Proof.
  intros H. unfold PyNum.strip_space.
  rewrite (skip_space_spaceless s H), skip_space_spaceless.
  - apply rev_involutive.
  - unfold String.rev. now rewrite spaceless_rev_app, H.
Qed.

Lemma spaceless_numeral (d : Decimal.uint) :
  spaceless (NilEmpty.string_of_uint d) = true.
Proof. induction d; cbn [NilEmpty.string_of_uint spaceless]; auto. Qed.

Lemma sign_numeral (d : Decimal.uint) :
  PyNum.sign (NilEmpty.string_of_uint d) = (false, NilEmpty.string_of_uint d).
Proof. destruct d; reflexivity. Qed.

Lemma digit_run_numeral (d : Decimal.uint) :
  PyNum.digit_run (NilEmpty.string_of_uint d) = (uint_digits d, "").
Proof. induction d; simpl; rewrite ?IHd; reflexivity. Qed.

Lemma digitpart_numeral (d : Decimal.uint) :
  d <> Decimal.Nil ->
  PyNum.digitpart (NilEmpty.string_of_uint d) = Some (uint_digits d, "").
Proof.
  destruct d; [congruence|..]; intros _; simpl;
    rewrite digit_run_numeral; reflexivity.
Qed.

Lemma length_uint_digits (d : Decimal.uint) :
  List.length (uint_digits d) = String.length (NilEmpty.string_of_uint d).
Proof. induction d; simpl; congruence. Qed.

Lemma decimal_uint_acc (d : Decimal.uint) (acc : N) :
  N.to_nat (fold_left (fun a k => (10 * a + k)%N) (uint_digits d) acc)
  = Nat.of_uint_acc d (N.to_nat acc).
Proof.
  revert acc. induction d; intros acc; [reflexivity|..];
    cbn [uint_digits fold_left Nat.of_uint_acc]; rewrite IHd;
    f_equal; rewrite Nat.tail_mul_spec, N2Nat.inj_add, N2Nat.inj_mul;
    simpl; lia.
Qed.

Lemma decimal_uint (d : Decimal.uint) :
  Z.of_N (PyNum.decimal (uint_digits d)) = Z.of_nat (Nat.of_uint d).
Proof.
  unfold PyNum.decimal, Nat.of_uint.
  rewrite <- N_nat_Z. f_equal. apply (decimal_uint_acc d 0).
Qed.

Lemma to_uint_nonnil (n : nat) : Nat.to_uint n <> Decimal.Nil.
Proof.
  intros H. pose proof (DecimalNat.Unsigned.of_to n) as E. rewrite H in E.
  destruct n; [discriminate H | discriminate E].
Qed.

(** [int] reads the decimal text of a number back, as long as the text
    stays within the limit on digits. *)
Lemma int_show_nat (n : nat) :
  (String.length (show_nat n) <= PyNum.int_max_str_digits)%nat ->
  PyNum.int_literal (show_nat n) = Some (Z.of_nat n).
Proof.
  unfold show_nat. intros Hlen. unfold PyNum.int_literal.
  rewrite strip_space_spaceless by apply spaceless_numeral.
  rewrite sign_numeral, digitpart_numeral by apply to_uint_nonnil.
  rewrite length_uint_digits.
  destruct (Nat.leb_spec (String.length (NilEmpty.string_of_uint (Nat.to_uint n)))
              PyNum.int_max_str_digits) as [_|?]; [|lia].
  now rewrite decimal_uint, DecimalNat.Unsigned.of_to.
Qed.

(** X13.  [parse_credits] reads a number written in decimal back as that
    number, as long as the text has no more digits than [int] accepts. *)
Theorem parse_credits_of_decimal (n : nat) :
  (String.length (show_nat n) <= PyNum.int_max_str_digits)%nat ->
  parse_credits (show_nat n) = Ok (Z.of_nat n).
Proof. intros H. now rewrite parse_credits_value, int_show_nat. Qed.

Lemma parse_credits_of_decimal_witness :
  parse_credits (show_nat 12) = Ok 12%Z.
Proof.
  apply (parse_credits_of_decimal 12).
  unfold PyNum.int_max_str_digits. simpl. lia.
Defined.

End Decimal.

(** ** The browser session and the choice of the semester *)

Section Semesters.

Lemma bind_run {S A B} (m : prog S A) (k : A -> prog S B) (st : S) :
  bind m k st
  = match m st with
    | (st', Ok a) => k a st'
    | (st', Raise e) => (st', Raise e)
    end.
Proof. reflexivity. Qed.

Lemma get_webdriver_run (b : browser) (w : io) :
  exists out,
    get_webdriver b w
    = ({| stdout := stdout w ++ out; quit_calls := quit_calls w |},
       Ok (if started b
           then Some (match chrome b with Ok _ => "chrome" | Raise _ => "firefox" end)
           else None)).
Proof.
  unfold get_webdriver, started.
  destruct (chrome b) as [[]|e]; [eexists; reflexivity|].
  destruct (firefox b) as [[]|e'].
  - eexists. unfold bind, print, ret. cbn [stdout quit_calls].
    rewrite <- app_assoc. reflexivity.
  - eexists. unfold bind, print, ret. cbn [stdout quit_calls].
    rewrite <- !app_assoc. reflexivity.
Qed.

Lemma fetch_quits (b : browser) (w : io) :
  quit_calls (fst (fetch_semesters_from_website b w))
  = (quit_calls w + if started b then 1 else 0)%nat.
Proof.
  unfold fetch_semesters_from_website. rewrite bind_run.
  destruct (get_webdriver_run b w) as [out ->].
  destruct (started b).
  - unfold try_finally, bind, lift, ret, driver_quit.
    destruct (load_page b) as [[]|e]; [destruct (semester_options b)|];
      cbn [fst quit_calls]; lia.
  - unfold bind, print, ret. cbn [fst quit_calls]. lia.
Qed.

(** X14.  [fetch_semesters_from_website] calls [driver.quit()] exactly once
    when a browser has started, whether the page and the selector are
    read or an exception is raised on the way, and never when no browser
    has started. *)
Theorem fetch_quits_once (b : browser) (w : io) :
  quit_calls (fst (fetch_semesters_from_website b w))
  = (quit_calls w + if started b then 1 else 0)%nat.
Proof. apply fetch_quits. Qed.

Lemma print_run (l : line) (w : io) :
  print l w = ({| stdout := stdout w ++ [l]; quit_calls := quit_calls w |}, Ok tt).
Proof. reflexivity. Qed.

Lemma print_all_run (ls : list line) (w : io) :
  print_all ls w
  = ({| stdout := stdout w ++ ls; quit_calls := quit_calls w |}, Ok tt).
Proof.
  revert w. induction ls as [|l ls IH]; intros w.
  - cbn [print_all]. unfold ret. rewrite app_nil_r. now destruct w.
  - cbn [print_all]. rewrite bind_run, print_run, IH. cbn [stdout quit_calls].
    now rewrite <- app_assoc.
Qed.

Lemma pick_elem (idx : Z) (semesters : list string) (sem : string) :
  pick idx semesters = Some sem -> sem ∈ semesters.
Proof.
  unfold pick. destruct (_ && _); [|discriminate].
  intros H. apply list_elem_of_In. eapply nth_error_In, H.
Qed.

Lemma int_picked (semesters : list string) (choice : string) :
  exists picked,
    try_except
      (match PyNum.int choice with
       | Ok n => Ok (pick (n - 1) semesters)
       | Raise e => Raise e
       end) [ValueError] (Ok None) = Ok picked
    /\ match picked with
       | Some sem => exists n, PyNum.int_literal choice = Some n
                               /\ pick (n - 1) semesters = Some sem
       | None => True
       end.
Proof.
  unfold PyNum.int. destruct (PyNum.int_literal choice) as [n|].
  - exists (pick (n - 1) semesters). split; [reflexivity|].
    destruct (pick (n - 1) semesters) eqn:E; [exists n; auto | exact I].
  - exists None. split; [reflexivity | exact I].
Qed.

(** What [ask] prints is fixed text, and what it returns is a semester of
    the list, nothing, or the end of the input. *)
Lemma ask_run (semesters stdin : list string) (w : io) :
  exists texts,
    stdout (fst (ask semesters stdin w)) = (stdout w ++ List.map Text texts)%list
    /\ quit_calls (fst (ask semesters stdin w)) = quit_calls w
    /\ match snd (ask semesters stdin w) with
       | Ok (Some sem) => sem ∈ semesters
       | Ok None => True
       | Raise e => e = EOFError
       end.
Proof.
  revert w. induction stdin as [|choice rest IH]; intros w.
  - exists [ask_text]. repeat split.
  - cbn [ask]. rewrite bind_run, print_run.
    destruct (String.eqb choice "0").
    + exists [ask_text; "Quitting application."].
      unfold bind, print, ret. cbn [fst snd stdout quit_calls List.map].
      rewrite <- app_assoc. repeat split.
    + rewrite bind_run. unfold lift.
      destruct (int_picked semesters choice) as (picked & -> & Hp).
      destruct picked as [sem|].
      * exists [ask_text]. unfold ret. cbn [fst snd stdout quit_calls].
        repeat split. destruct Hp as (n & _ & Hn). eapply pick_elem, Hn.
      * rewrite bind_run, print_run.
        destruct (IH {| stdout :=
                          (stdout w ++ [Text ask_text])
                          ++ [Text "Invalid selection. Please enter a number from the list or 0 to quit."];
                        quit_calls := quit_calls w |})
          as (texts & Hout & Hq & Hres).
        exists (ask_text
                  :: "Invalid selection. Please enter a number from the list or 0 to quit."
                  :: texts).
        cbn [stdout quit_calls] in *. rewrite Hout, Hq.
        split; [|split; [reflexivity | exact Hres]].
        cbn [List.map]. now rewrite <- !app_assoc.
Qed.

Lemma prompt_semester_run (semesters stdin : list string) (w : io) :
  match semesters with
  | [] => prompt_semester semesters stdin w
          = ({| stdout := stdout w ++ [Text "Could not fetch the semester list."];
                quit_calls := quit_calls w |}, Ok None)
  | _ :: _ =>
      prompt_semester semesters stdin w
      = ask semesters stdin
          {| stdout :=
               ((stdout w ++ [Text ""]) ++ [Text "Available semesters:"])
               ++ imap (fun idx sem =>
                          Numbered (List.length semesters - idx) sem)
                       (rev semesters);
             quit_calls := quit_calls w |}
  end.
Proof.
  unfold prompt_semester. destruct semesters as [|s0 rest]; [reflexivity|].
  do 3 (rewrite bind_run; rewrite ?print_run, ?print_all_run; cbv iota beta).
  reflexivity.
Qed.

Lemma prompt_semester_cases (semesters stdin : list string) (w : io) :
  match snd (prompt_semester semesters stdin w) with
  | Ok (Some sem) => sem ∈ semesters
  | Ok None => True
  | Raise e => e = EOFError
  end.
Proof.
  pose proof (prompt_semester_run semesters stdin w) as Hrun.
  destruct semesters as [|s0 rest]; rewrite Hrun; [exact I|].
  match goal with
  | |- context [ask ?l stdin ?w'] =>
      destruct (ask_run l stdin w') as (_ & _ & _ & H)
  end.
  exact H.
Qed.

(** X15.  [prompt_semester] never returns a semester that is not in the
    list it was given, and the one exception it can raise is [EOFError],
    when the input ends. *)
Theorem prompt_semester_result (semesters stdin : list string) (w : io) :
  match snd (prompt_semester semesters stdin w) with
  | Ok (Some sem) => sem ∈ semesters
  | Ok None => True
  | Raise e => e = EOFError
  end.
Proof. apply prompt_semester_cases. Qed.

Lemma fetch_result (b : browser) (w : io) :
  snd (fetch_semesters_from_website b w)
  = if started b then
      match load_page b with
      | Raise e => Raise e
      | Ok _ =>
          match semester_options b with
          | Raise e => Raise e
          | Ok opts => Ok (option_values opts)
          end
      end
    else Ok [].
Proof.
  unfold fetch_semesters_from_website. rewrite bind_run.
  destruct (get_webdriver_run b w) as [out ->].
  destruct (started b); [|reflexivity].
  unfold try_finally, bind, lift, ret, driver_quit.
  destruct (load_page b) as [[]|e]; [destruct (semester_options b)|];
    reflexivity.
Qed.

Lemma option_values_elem (opts : list (option string)) (sem : string) :
  sem ∈ option_values opts -> sem <> "" /\ Some sem ∈ opts.
Proof.
  unfold option_values. rewrite list_elem_of_In, List.filter_In.
  intros [Hin Ht]. split; [now apply truthy_nonempty|].
  apply list_elem_of_In, list_elem_of_omap in Hin as (x & Hx & Hid).
  unfold id in Hid. now subst x.
Qed.

(** X16.  How the start of a run can end.  A semester goes on to be
    scraped only if it is the non-empty value of an option that the
    selector of the page holds; a traceback comes only from the end of the
    input or, with a browser started, from loading the page or reading
    the selector. *)
Theorem main_endings (b : browser) (stdin : list string) :
  match snd (main b stdin) with
  | Scraping sem =>
      sem <> "" /\ exists opts, semester_options b = Ok opts /\ Some sem ∈ opts
  | Traceback e =>
      e = EOFError
      \/ (started b = true
          /\ (load_page b = Raise e \/ semester_options b = Raise e))
  | Finished => True
  end.
Proof.
  unfold main. rewrite bind_run.
  pose proof (fetch_result b {| stdout := []; quit_calls := 0 |}) as Hf.
  destruct (fetch_semesters_from_website b _) as [w [semesters|e]];
    cbn [snd] in Hf.
  - pose proof (prompt_semester_cases semesters stdin w) as Hp.
    destruct (prompt_semester semesters stdin w) as [w' [[sem|]|e]];
      cbn [snd] in *; [| exact I | now left].
    destruct (PyStr.truthy sem) eqn:Ht; [|exact I].
    split; [now apply truthy_nonempty|].
    destruct (started b).
    + destruct (load_page b); [|discriminate].
      destruct (semester_options b) as [opts|]; [|discriminate].
      injection Hf as ->. exists opts. split; [reflexivity|].
      now apply option_values_elem.
    + injection Hf as ->. now apply elem_of_nil in Hp.
  - cbn [snd]. right. destruct (started b); [|discriminate]. split; [reflexivity|].
    destruct (load_page b); [|left; congruence].
    destruct (semester_options b); [discriminate | right; congruence].
Qed.

Lemma nth_error_lookup {A} (l : list A) (i : nat) : nth_error l i = l !! i.
Proof. revert i. induction l; intros [|i]; simpl; auto. Qed.

Lemma show_nat_zero (n : nat) :
  (String.length (show_nat n) <= PyNum.int_max_str_digits)%nat ->
  show_nat n = "0" -> n = 0%nat.
Proof.
  intros Hlen H0. pose proof (int_show_nat n Hlen) as E. rewrite H0 in E.
  assert (E0 : PyNum.int_literal "0" = Some 0%Z) by reflexivity.
  rewrite E0 in E. injection E. lia.
Qed.

Lemma ask_number (semesters rest : list string) (n : nat) (sem : string)
    (w : io) :
  (1 <= n)%nat -> semesters !! (n - 1)%nat = Some sem ->
  (String.length (show_nat n) <= PyNum.int_max_str_digits)%nat ->
  snd (ask semesters (show_nat n :: rest) w) = Ok (Some sem).
Proof.
  intros Hn Hsem Hlen.
  assert (Hpick : pick (Z.of_nat n - 1) semesters = Some sem).
  { unfold pick. apply lookup_lt_Some in Hsem as Hlt.
    replace (Z.of_nat n - 1)%Z with (Z.of_nat (n - 1)) by lia.
    rewrite Nat2Z.id, nth_error_lookup, Hsem.
    destruct (Z.leb_spec 0 (Z.of_nat (n - 1))); [|lia].
    destruct (Z.ltb_spec (Z.of_nat (n - 1)) (Z.of_nat (List.length semesters)));
      [reflexivity | lia]. }
  cbn [ask]. rewrite bind_run, print_run. cbv iota beta.
  destruct (String.eqb_spec (show_nat n) "0") as [E0|_].
  { apply show_nat_zero in E0; [lia | exact Hlen]. }
  rewrite bind_run. unfold lift, PyNum.int.
  rewrite (int_show_nat _ Hlen). cbn [try_except]. rewrite Hpick. reflexivity.
Qed.

(** X17.  Typing the number that the menu shows next to a semester selects
    that semester, as long as the number has no more digits than [int]
    accepts. *)
Theorem number_shown_selects (semesters stdin rest : list string)
    (n : nat) (sem : string) (w : io) :
  Numbered n sem ∈ stdout (fst (prompt_semester semesters stdin (fresh 0))) ->
  (String.length (show_nat n) <= PyNum.int_max_str_digits)%nat ->
  snd (prompt_semester semesters (show_nat n :: rest) w) = Ok (Some sem).
Proof.
  intros Hshown Hlen.
  pose proof (prompt_semester_run semesters stdin (fresh 0)) as Hrun.
  pose proof (prompt_semester_run semesters (show_nat n :: rest) w) as Hrun'.
  destruct semesters as [|s0 more].
  { rewrite Hrun in Hshown. cbn [fst stdout fresh] in Hshown.
    apply list_elem_of_In in Hshown. simpl in Hshown.
    destruct Hshown as [H|[]]. discriminate H. }
  rewrite Hrun in Hshown. rewrite Hrun'. clear Hrun Hrun'.
  set (semesters := s0 :: more) in *.
  match type of Hshown with
  | context [ask semesters stdin ?w'] =>
      destruct (ask_run semesters stdin w') as (texts & Hout & _ & _);
      rewrite Hout in Hshown
  end.
  cbn [stdout fresh] in Hshown.
  rewrite !elem_of_app in Hshown.
  assert (Hmenu : Numbered n sem
                  ∈ imap (fun idx sem => Numbered (List.length semesters - idx) sem)
                         (rev semesters)).
  { destruct Hshown as [[[[H|H]|H]|H]|H]; [| | | exact H |].
    - now apply elem_of_nil in H.
    - apply list_elem_of_singleton in H. discriminate H.
    - apply list_elem_of_singleton in H. discriminate H.
    - apply list_elem_of_In, List.in_map_iff in H as (t & Ht & _).
      discriminate Ht. }
  apply elem_of_lookup_imap_1 in Hmenu as (idx & y & Heq & Hidx).
  injection Heq as -> ->.
  rewrite rev_alt in Hidx. change (rev_append semesters []) with (reverse semesters) in Hidx.
  apply reverse_lookup_Some in Hidx as [Hidx Hlt].
  subst semesters. cbn [List.length] in *.
  apply ask_number; [lia | | exact Hlen].
  now replace (S (List.length more) - idx - 1)%nat
    with (S (List.length more) - S idx)%nat by lia.
Qed.

Lemma number_shown_selects_witness :
  snd (prompt_semester ["2023/2024-2"; "2024/2025-1"] [show_nat 2] (fresh 0))
  = Ok (Some "2024/2025-1").
Proof.
  apply (number_shown_selects ["2023/2024-2"; "2024/2025-1"] [] []).
  - vm_compute. apply list_elem_of_In. simpl. auto.
  - unfold PyNum.int_max_str_digits. simpl. lia.
Defined.

End Semesters.

(** ** The file that [save_json] writes *)

Section SaveJson.

#[local] Instance key_le_total : Total key_le.
Proof. intros x y. unfold key_le. apply total, _. Qed.

#[local] Instance key_le_trans : Transitive key_le.
Proof. intros x y z. unfold key_le. apply transitivity. Qed.

Lemma sorted_items_map (data : gmap string course) :
  list_to_map (sorted_items data) = data.
Proof.
  unfold sorted_items. rewrite <- (list_to_map_to_list data) at 2.
  apply list_to_map_proper; [|apply merge_sort_Permutation].
  rewrite merge_sort_Permutation. apply NoDup_fst_map_to_list.
Qed.

Lemma sorted_items_keys (data : gmap string course) :
  StronglySorted key_le (sorted_items data)
  /\ NoDup (sorted_items data).*1.
Proof.
  unfold sorted_items. split; [apply StronglySorted_merge_sort; apply _|].
  rewrite merge_sort_Permutation. apply NoDup_fst_map_to_list.
Qed.

Lemma sorted_items_nonempty (data : gmap string course) :
  data <> ∅ -> sorted_items data <> [].
Proof.
  intros Hne Hnil. apply Hne. rewrite <- (sorted_items_map data), Hnil.
  reflexivity.
Qed.

Lemma save_json_run (data : gmap string course) (semester : string) (w : io) :
  exists out,
    save_json data semester w
    = ({| stdout := stdout w ++ out; quit_calls := quit_calls w |},
       Ok (if bool_decide (data = ∅) then None
           else Some {| path := path_join "data"
                                  (PyStr.replace "/" "-" semester ++ ".json");
                        members := sorted_items data |})).
Proof.
  unfold save_json. destruct (bool_decide (data = ∅)).
  - eexists. reflexivity.
  - eexists. unfold bind, print, ret. cbn [stdout quit_calls].
    rewrite <- app_assoc. reflexivity.
Qed.

Lemma replace_slash_from (s : string) :
  PyStr.contains "/" (PyStr.replace_from 0 "/" "-" s) = false
  /\ String.length (PyStr.replace_from 0 "/" "-" s) = String.length s.
Proof.
  induction s as [|c s [IH1 IH2]]; [split; reflexivity|].
  cbn [PyStr.replace_from PyStr.startswith String.length Nat.sub].
  rewrite andb_true_r.
  destruct (Ascii.eqb_spec "/" c) as [<-|Hne].
  - change ("-" ++ PyStr.replace_from 0 "/" "-" s)
      with (String "-" (PyStr.replace_from 0 "/" "-" s)).
    cbn [PyStr.contains PyStr.startswith String.length]. rewrite IH1, IH2.
    split; reflexivity.
  - cbn [PyStr.contains PyStr.startswith String.length]. rewrite IH1, IH2.
    apply Ascii.eqb_neq in Hne. rewrite Hne. split; reflexivity.
Qed.

Lemma startswith_slash (name ext : string) :
  PyStr.contains "/" name = false -> PyStr.startswith "/" ext = false ->
  PyStr.startswith "/" (name ++ ext) = false.
Proof.
  destruct name as [|c name]; [auto|]. intros H _.
  change (String c name ++ ext) with (String c (name ++ ext)).
  cbn [PyStr.contains PyStr.startswith] in *.
  rewrite andb_true_r in *. now apply orb_false_elim in H as [-> _].
Qed.

(** X19.  The file that [save_json] writes lies in the directory [data]:
    its path is [data/], a name without any slash that is as long as the
    semester, and [.json]. *)
Theorem save_json_path (data : gmap string course) (semester : string)
    (w : io) (f : file) :
  snd (save_json data semester w) = Ok (Some f) ->
  exists name,
    path f = "data/" ++ name ++ ".json"
    /\ PyStr.contains "/" name = false
    /\ String.length name = String.length semester.
Proof.
  destruct (save_json_run data semester w) as [out ->]. cbn [snd].
  case_bool_decide; [discriminate|]. intros [= <-]. cbn [path].
  destruct (replace_slash_from semester) as [Hc Hl].
  exists (PyStr.replace "/" "-" semester). unfold PyStr.replace.
  split; [|split; assumption].
  unfold path_join. now rewrite startswith_slash.
Qed.

Lemma save_json_path_witness :
  exists name,
    "data/2024-2025-1.json" = "data/" ++ name ++ ".json"
    /\ PyStr.contains "/" name = false
    /\ String.length name = String.length "2024/2025-1".
Proof.
  apply (save_json_path (results (scrape_pages
                                    [{| url := ""; table := Some [header; row_A] |}]))
           "2024/2025-1" (fresh 0)
           {| path := "data/2024-2025-1.json";
              members := [("CMPE150",
                           record_A (Some ["M"; "W"]) (Some ["9"; "10"])
                                    ["101"])] |}).
  vm_compute. reflexivity.
Defined.

End SaveJson.

(** ** The whole of [scrape_boun_schedule] *)

Section Schedule.

Lemma visit_department_run (p : page) (st : scan_state) (w : io) :
  exists out,
    visit_department p st w
    = ({| stdout := stdout w ++ out; quit_calls := quit_calls w |},
       Ok (scrape_department p st)).
Proof.
  unfold visit_department, scrape_department.
  destruct (table p) as [trs|]; [|eexists; reflexivity].
  rewrite bind_run, print_run. cbv iota beta.
  destruct (scan_rows (tail trs) st) as [st' [[]|e]].
  - eexists. reflexivity.
  - eexists. unfold bind, print, ret. cbn [stdout quit_calls fst].
    rewrite <- app_assoc. reflexivity.
Qed.

Lemma visit_all_ok (vs : list visit) (st : scan_state) (w : io) :
  Forall (fun v => opened v = Ok tt) vs ->
  exists out,
    visit_all vs st w
    = ({| stdout := stdout w ++ out; quit_calls := quit_calls w |},
       Ok (fold_left (fun st p => scrape_department p st)
                     (List.map shown vs) st)).
Proof.
  intros Hvs. revert st w.
  induction Hvs as [|v vs Hv _ IH]; intros st w.
  - exists []. cbn [visit_all]. unfold ret. rewrite app_nil_r. now destruct w.
  - cbn [visit_all List.map fold_left]. rewrite bind_run. unfold lift at 1.
    rewrite Hv, bind_run.
    destruct (visit_department_run (shown v) st w) as [out1 ->].
    destruct (IH (scrape_department (shown v) st)
                 {| stdout := stdout w ++ out1; quit_calls := quit_calls w |})
      as [out2 ->].
    exists (out1 ++ out2)%list. cbn [stdout quit_calls].
    now rewrite app_assoc.
Qed.

Lemma visit_all_quits (vs : list visit) (st : scan_state) (w : io) :
  quit_calls (fst (visit_all vs st w)) = quit_calls w.
Proof.
  revert st w. induction vs as [|v vs IH]; intros st w; [reflexivity|].
  cbn [visit_all]. rewrite bind_run. unfold lift at 1.
  destruct (opened v) as [[]|e]; [|reflexivity].
  rewrite bind_run.
  destruct (visit_department_run (shown v) st w) as [out1 ->].
  now rewrite IH.
Qed.

Lemma visit_all_fails (good rest : list visit) (v : visit) (e : exn)
    (st : scan_state) (w : io) :
  Forall (fun v => opened v = Ok tt) good -> opened v = Raise e ->
  snd (visit_all (good ++ v :: rest) st w) = Raise e.
Proof.
  intros Hgood Hv. revert st w.
  induction Hgood as [|g good Hg _ IH]; intros st w.
  - cbn [app visit_all]. rewrite bind_run. unfold lift at 1. now rewrite Hv.
  - cbn [app visit_all]. rewrite bind_run. unfold lift at 1.
    rewrite Hg, bind_run.
    destruct (visit_department_run (shown g) st w) as [out1 ->]. apply IH.
Qed.

Lemma scrape_run (b : browser) (links : result (list visit)) (w : io) :
  exists out,
    scrape_boun_schedule b links w
    = if started b then
        match links with
        | Ok vs =>
            let w1 := {| stdout := stdout w ++ out; quit_calls := quit_calls w |} in
            let r := visit_all vs initial_state w1 in
            ({| stdout := stdout (fst r); quit_calls := S (quit_calls (fst r)) |},
             match snd r with
             | Ok st => Ok (results st)
             | Raise e => Raise e
             end)
        | Raise e =>
            ({| stdout := stdout w ++ out; quit_calls := S (quit_calls w) |},
             Raise e)
        end
      else ({| stdout := stdout w ++ out; quit_calls := quit_calls w |},
            Ok ∅).
Proof.
  unfold scrape_boun_schedule.
  destruct (get_webdriver_run b w) as [out0 E]. rewrite bind_run, E.
  destruct (started b).
  - destruct links as [vs|e].
    + exists (out0 ++ [Text ("Found " ++ show_nat (List.length vs)
                               ++ " department schedules to scrape.")])%list.
      unfold try_finally. rewrite bind_run. unfold lift at 1.
      rewrite bind_run, print_run. cbv iota beta zeta.
      cbn [stdout quit_calls]. rewrite <- app_assoc, bind_run.
      destruct (visit_all vs initial_state _) as [w2 [st|e]]; reflexivity.
    + exists out0. reflexivity.
  - eexists. unfold bind, print, ret. cbn [stdout quit_calls].
    rewrite <- app_assoc. reflexivity.
Qed.

Lemma scrape_quits (b : browser) (links : result (list visit)) (w : io) :
  quit_calls (fst (scrape_boun_schedule b links w))
  = (quit_calls w + if started b then 1 else 0)%nat.
Proof.
  destruct (scrape_run b links w) as [out ->].
  destruct (started b); [|cbn [fst quit_calls]; lia].
  destruct links as [vs|e]; cbn [fst quit_calls]; [|lia].
  rewrite visit_all_quits. cbn [quit_calls]. lia.
Qed.

(** X20.  [scrape_boun_schedule] calls [driver.quit()] exactly once when a
    browser has started, whatever the site answers and whichever
    exception ends the scrape, and never when no browser has started. *)
Theorem scrape_quits_once (b : browser) (links : result (list visit)) (w : io) :
  quit_calls (fst (scrape_boun_schedule b links w))
  = (quit_calls w + if started b then 1 else 0)%nat.
Proof. apply scrape_quits. Qed.

(** X21.  With a browser started, the department links found and every
    one of them loaded, [scrape_boun_schedule] returns the records that
    the row loop gathers over the pages in the order of the links. *)
Theorem scrape_returns_records (b : browser) (vs : list visit) (w : io) :
  started b = true -> Forall (fun v => opened v = Ok tt) vs ->
  snd (scrape_boun_schedule b (Ok vs) w)
  = Ok (results (scrape_pages (List.map shown vs))).
Proof.
  intros Hb Hvs. destruct (scrape_run b (Ok vs) w) as [out ->]. rewrite Hb.
  cbv zeta. cbn [snd].
  destruct (visit_all_ok vs initial_state
              {| stdout := stdout w ++ out; quit_calls := quit_calls w |} Hvs)
    as [out' ->].
  reflexivity.
Qed.

Lemma scrape_returns_records_witness :
  snd (scrape_boun_schedule no_selector
         (Ok [{| opened := Ok tt;
                 shown := {| url := "sch.asp?kisaadi=CMPE";
                             table := Some [header; row_A; row_B] |} |}])
         (fresh 0))
  = Ok (results (scrape_pages [{| url := "sch.asp?kisaadi=CMPE";
                                  table := Some [header; row_A; row_B] |}])).
Proof.
  apply (scrape_returns_records no_selector
           [{| opened := Ok tt;
               shown := {| url := "sch.asp?kisaadi=CMPE";
                           table := Some [header; row_A; row_B] |} |}]).
  - reflexivity.
  - repeat constructor.
Defined.

(** X22.  A department link that fails to load ends the scrape with its
    exception: [driver.get(url)] stands outside the handler of the
    department loop, so the records gathered from the pages before it are
    not returned. *)
Theorem failed_load_loses_records (b : browser) (good rest : list visit)
    (v : visit) (e : exn) (w : io) :
  started b = true -> Forall (fun v => opened v = Ok tt) good ->
  opened v = Raise e ->
  snd (scrape_boun_schedule b (Ok (good ++ v :: rest)%list) w) = Raise e.
Proof.
  intros Hb Hgood Hv.
  destruct (scrape_run b (Ok (good ++ v :: rest)%list) w) as [out ->]. rewrite Hb.
  cbv zeta. cbn [snd]. now rewrite (visit_all_fails good rest v e).
Qed.

Lemma failed_load_loses_records_witness :
  snd (scrape_boun_schedule no_selector
         (Ok [{| opened := Ok tt;
                 shown := {| url := "sch.asp?kisaadi=CMPE";
                             table := Some [header; row_A; row_B] |} |};
              {| opened := Raise WebDriverException;
                 shown := {| url := "sch.asp?kisaadi=MATH"; table := None |} |}])
         (fresh 0))
  = Raise WebDriverException.
Proof.
  apply (failed_load_loses_records no_selector
           [{| opened := Ok tt;
               shown := {| url := "sch.asp?kisaadi=CMPE";
                           table := Some [header; row_A; row_B] |} |}]
           []
           {| opened := Raise WebDriverException;
              shown := {| url := "sch.asp?kisaadi=MATH"; table := None |} |}).
  - reflexivity.
  - repeat constructor.
  - reflexivity.
Defined.

Lemma capitals_idempotent (s : string) : capitals (capitals s) = capitals s.
Proof.
  induction s as [|c s IH]; [reflexivity|]. cbn [capitals].
  destruct (PyStr.in_range 65 90 c) eqn:E; [|reflexivity].
  cbn [capitals]. now rewrite E, IH.
Qed.

Lemma search_kisaadi_capitals (u g : string) :
  search_kisaadi u = Some g -> g <> "" /\ capitals g = g.
Proof.
  induction u as [|c u IH]; [discriminate|]. cbn [search_kisaadi].
  destruct (PyStr.startswith "kisaadi=" (String c u)
            && PyStr.truthy (capitals (Spec.drop 8 (String c u)))) eqn:E;
    [|exact IH].
  intros [= <-]. apply andb_prop in E as [_ E].
  split; [now apply truthy_nonempty | apply capitals_idempotent].
Qed.

(** X23.  The department code taken from a link is never empty and is made
    of capital letters only, whatever the link. *)
Theorem dept_code_capitals (u : string) :
  dept_code u <> "" /\ capitals (dept_code u) = dept_code u.
Proof.
  unfold dept_code. destruct (search_kisaadi u) as [g|] eqn:E.
  - eapply search_kisaadi_capitals, E.
  - split; [discriminate | reflexivity].
Qed.

End Schedule.

(** ** The script as a whole *)

Section Script.

(** What the script does once a semester is chosen (lines 313-318). *)
Lemma script_run (b b' : browser) (links : result (list visit))
    (stdin : list string) :
  script b b' links stdin
  = match main b stdin with
    | (w, Finished) => (w, Ok None)
    | (w, Traceback e) => (w, Raise e)
    | (w, Scraping sem) =>
        (print (Text "") ;;;
         print (Text ("Starting to scrape data for semester: " ++ sem ++ "...")) ;;;
         data <- scrape_boun_schedule b' links ;;
         save_json data sem) w
    end.
Proof.
  unfold script, main. rewrite !bind_run.
  destruct (fetch_semesters_from_website b _) as [w1 [semesters|e]];
    [|reflexivity].
  rewrite bind_run.
  destruct (prompt_semester semesters stdin w1) as [w2 [[sem|]|e]];
    try reflexivity.
  destruct (PyStr.truthy sem); reflexivity.
Qed.

Lemma main_quits (b : browser) (stdin : list string) :
  quit_calls (fst (main b stdin)) = if started b then 1%nat else 0%nat.
Proof.
  unfold main. rewrite bind_run.
  pose proof (fetch_quits b {| stdout := []; quit_calls := 0 |}) as Hq.
  destruct (fetch_semesters_from_website b _) as [w1 [semesters|e]];
    cbn [fst quit_calls] in Hq; [|exact Hq].
  pose proof (prompt_semester_run semesters stdin w1) as Hrun.
  assert (Hp : quit_calls (fst (prompt_semester semesters stdin w1))
               = quit_calls w1).
  { destruct semesters as [|s0 rest]; rewrite Hrun; [reflexivity|].
    match goal with
    | |- context [ask ?l stdin ?w'] =>
        destruct (ask_run l stdin w') as (_ & _ & -> & _)
    end.
    reflexivity. }
  destruct (prompt_semester semesters stdin w1) as [w2 [[sem|]|e]];
    cbn [fst] in *; try lia.
Qed.

(** X25.  Every browser that a run starts is quit: [driver.quit()] is
    called once for the browser that fetches the semester list, if it
    starts, and once more for the browser of the scrape, if a semester is
    chosen and that browser starts. *)
Theorem script_quits_every_browser (b b' : browser)
    (links : result (list visit)) (stdin : list string) :
  quit_calls (fst (script b b' links stdin))
  = ((if started b then 1 else 0)
     + match snd (main b stdin) with
       | Scraping _ => if started b' then 1 else 0
       | _ => 0
       end)%nat.
Proof.
  rewrite script_run. pose proof (main_quits b stdin) as Hm.
  destruct (main b stdin) as [w [e| |sem]]; cbn [fst snd] in *; try lia.
  do 2 (rewrite bind_run, print_run; cbv iota beta). rewrite bind_run.
  match goal with
  | |- context [scrape_boun_schedule b' links ?w'] =>
      pose proof (scrape_quits b' links w') as Hs;
      destruct (scrape_boun_schedule b' links w') as [w2 [data|e]]
  end; cbn [fst quit_calls] in *; [|lia].
  destruct (save_json_run data sem w2) as [out ->]. cbn [fst quit_calls]. lia.
Qed.

(** X26.  A run writes a file only after a semester has been chosen and
    records have been scraped: the file then lies in [data], has at least
    one member, and its members stand in ascending order of their keys. *)
Theorem script_file (b b' : browser) (links : result (list visit))
    (stdin : list string) (f : file) :
  snd (script b b' links stdin) = Ok (Some f) ->
  (exists sem, snd (main b stdin) = Scraping sem)
  /\ PyStr.startswith "data/" (path f) = true
  /\ members f <> []
  /\ StronglySorted key_le (members f).
Proof.
  rewrite script_run.
  destruct (main b stdin) as [w [e| |sem]]; cbn [snd]; try discriminate.
  do 2 (rewrite bind_run, print_run; cbv iota beta). rewrite bind_run.
  match goal with
  | |- context [scrape_boun_schedule b' links ?w'] =>
      destruct (scrape_boun_schedule b' links w') as [w2 [data|e]]
  end; [|discriminate].
  destruct (save_json_run data sem w2) as [out ->]. cbn [snd].
  case_bool_decide as Hd; [discriminate|]. intros [= <-]. cbn [path members].
  split; [eauto|]. split; [|split].
  - destruct (replace_slash_from sem) as [Hc _].
    unfold path_join, PyStr.replace. now rewrite startswith_slash.
  - now apply sorted_items_nonempty.
  - apply sorted_items_keys.
Qed.

Lemma script_file_witness :
  exists sem,
    snd (main {| chrome := Ok tt; firefox := Ok tt; load_page := Ok tt;
                 semester_options := Ok [Some "2024/2025-1"] |} ["1"])
    = Scraping sem.
Proof.
  apply (script_file
           {| chrome := Ok tt; firefox := Ok tt; load_page := Ok tt;
              semester_options := Ok [Some "2024/2025-1"] |}
           no_selector
           (Ok [{| opened := Ok tt;
                   shown := {| url := "sch.asp?kisaadi=CMPE";
                               table := Some [header; row_A] |} |}])
           ["1"]
           {| path := "data/2024-2025-1.json";
              members := [("CMPE150",
                           record_A (Some ["M"; "W"]) (Some ["9"; "10"])
                                    ["101"])] |}).
  vm_compute. reflexivity.
Defined.

End Script.

(** ** Continuation rows and pages without a table *)

Section More.

(** X27.  A continuation row met while the current record has a days list
    and an hours list is processed without an exception; afterwards the
    record's days are the former days followed by what [parse_days] reads
    in cell 7, if that cell is not blank, and likewise for the hours and
    cell 8. *)
Theorem continuation_row_appends (key : string) (cols : row) (st : scan_state)
    (c : course) (d h : list string) :
  (10 <= List.length cols)%nat ->
  PyStr.strip (text (col cols 0)) = "" ->
  current_record st = Some key ->
  results st !! key = Some c -> days c = Some d -> hours c = Some h ->
  exists st' c',
    process_row cols st = (st', Ok tt)
    /\ results st' !! key = Some c'
    /\ days c' = Some (if PyStr.truthy (PyStr.strip (text (col cols 7)))
                       then d ++ parse_days (text (col cols 7)) else d)%list
    /\ hours c' = Some (if PyStr.truthy (PyStr.strip (text (col cols 8)))
                        then h ++ parse_hours (text (col cols 8)) else h)%list.
Proof. apply continuation_appends. Qed.

Lemma continuation_row_appends_witness :
  exists st' c',
    process_row row_B (fst (process_row row_A initial_state)) = (st', Ok tt)
    /\ results st' !! "CMPE150" = Some c'
    /\ days c' = Some ["M"; "W"; "F"]
    /\ hours c' = Some ["9"; "10"; "11"].
Proof.
  assert (H10 : (10 <= List.length row_B)%nat) by (simpl; lia).
  exact (continuation_row_appends "CMPE150" row_B
           (fst (process_row row_A initial_state))
           (record_A (Some ["M"; "W"]) (Some ["9"; "10"]) ["101"])
           ["M"; "W"] ["9"; "10"] H10 eq_refl eq_refl eq_refl eq_refl eq_refl).
Defined.

(** X28.  A continuation row whose days cell is not blank, met while the
    current record has no days list, raises [KeyError('days')] and leaves
    the results and the pointer as they were. *)
Theorem continuation_row_key_error (key : string) (cols : row)
    (st : scan_state) (c : course) :
  (10 <= List.length cols)%nat ->
  PyStr.strip (text (col cols 0)) = "" ->
  current_record st = Some key ->
  results st !! key = Some c -> days c = None ->
  PyStr.truthy (PyStr.strip (text (col cols 7))) = true ->
  process_row cols st = (st, Raise (KeyError "days")).
Proof. apply continuation_needs_days. Qed.

Lemma continuation_row_key_error_witness :
  process_row row_B (fst (process_row row_A_unscheduled initial_state))
  = (fst (process_row row_A_unscheduled initial_state), Raise (KeyError "days")).
Proof.
  assert (H10 : (10 <= List.length row_B)%nat) by (simpl; lia).
  exact (continuation_row_key_error "CMPE150" row_B
           (fst (process_row row_A_unscheduled initial_state))
           (record_A None None ["101"])
           H10 eq_refl eq_refl eq_refl eq_refl eq_refl).
Defined.

Lemma fold_departments_tabled (ps : list page) (st : scan_state) :
  fold_left (fun st p => scrape_department p st) ps st
  = fold_left (fun st p => scrape_department p st)
      (List.filter (fun p => bool_decide (is_Some (table p))) ps) st.
Proof.
  revert st. induction ps as [|p ps IH]; intros st; [reflexivity|].
  cbn [fold_left List.filter].
  destruct (table p) as [trs|] eqn:E.
  - rewrite bool_decide_eq_true_2 by eauto. cbn [fold_left]. apply IH.
  - rewrite bool_decide_eq_false_2 by (intros [? ?]; discriminate).
    assert (Hs : scrape_department p st = st)
      by (unfold scrape_department; now rewrite E).
    rewrite Hs. apply IH.
Qed.

(** X29.  A department page on which no table turns up changes nothing:
    the scrape gives the same records and the same pointer with such
    pages left out. *)
Theorem pages_without_table_are_skipped (ps : list page) :
  scrape_pages ps
  = scrape_pages (List.filter (fun p => bool_decide (is_Some (table p))) ps).
Proof. unfold scrape_pages. apply fold_departments_tabled. Qed.

End More.

(** ** Literals: what [int] and [float] accept *)

Section Literals.

Local Ltac each_char c := destruct c as [[] [] [] [] [] [] [] []].

Lemma append_assoc (a b c : string) : (a ++ b) ++ c = a ++ (b ++ c).
Proof.
  induction a as [|x a IH]; [reflexivity|].
  change ((String x a ++ b) ++ c) with (String x ((a ++ b) ++ c)).
  now rewrite IH.
Qed.

Lemma rev_app_append (s acc : string) :
  String.rev_app s acc = String.rev s ++ acc.
Proof.
  unfold String.rev. revert acc. induction s as [|c s IH]; intros acc;
    [reflexivity|].
  cbn [String.rev_app]. rewrite (IH (String c acc)), (IH (String c "")).
  now rewrite append_assoc.
Qed.

Lemma rev_append (a b : string) :
  String.rev (a ++ b) = String.rev b ++ String.rev a.
Proof.
  induction a as [|x a IH].
  - change ("" ++ b) with b. now rewrite append_empty.
  - change (String x a ++ b) with (String x (a ++ b)).
    unfold String.rev at 1 3. cbn [String.rev_app].
    rewrite !rev_app_append, IH. now rewrite append_assoc.
Qed.

Lemma blank_char_isspace (c : ascii) : Literal.blank_char c = PyNum.isspace c.
Proof. each_char c; reflexivity. Qed.

Lemma blank_append (a b : string) :
  Literal.blank (a ++ b) = Literal.blank a && Literal.blank b.
Proof.
  induction a as [|x a IH]; [reflexivity|].
  change (String x a ++ b) with (String x (a ++ b)). cbn [Literal.blank].
  now rewrite IH, andb_assoc.
Qed.

Lemma blank_rev (s : string) : Literal.blank (String.rev s) = Literal.blank s.
Proof.
  induction s as [|c s IH]; [reflexivity|].
  change (String c s) with (String c "" ++ s) at 1.
  rewrite rev_append, blank_append, IH. cbn [Literal.blank String.rev String.rev_app].
  now rewrite andb_true_r, andb_comm.
Qed.

Lemma skip_space_blank (pad x : string) :
  Literal.blank pad = true -> PyNum.skip_space (pad ++ x) = PyNum.skip_space x.
Proof.
  induction pad as [|c pad IH]; [reflexivity|]. cbn [Literal.blank].
  intros H. apply andb_prop in H as [Hc Hpad].
  change (String c pad ++ x) with (String c (pad ++ x)). cbn [PyNum.skip_space].
  rewrite <- blank_char_isspace, Hc. now apply IH.
Qed.

Lemma skip_space_split (s : string) :
  exists pad, s = pad ++ PyNum.skip_space s /\ Literal.blank pad = true.
Proof.
  induction s as [|c s (pad & Hs & Hpad)]; [now exists ""|].
  cbn [PyNum.skip_space]. destruct (PyNum.isspace c) eqn:Hc.
  - exists (String c pad). split.
    + change (String c pad ++ PyNum.skip_space s)
        with (String c (pad ++ PyNum.skip_space s)). now rewrite <- Hs.
    + cbn [Literal.blank]. now rewrite blank_char_isspace, Hc.
  - now exists "".
Qed.

Lemma spaceless_append (a b : string) :
  spaceless (a ++ b) = spaceless a && spaceless b.
Proof.
  induction a as [|x a IH]; [reflexivity|].
  change (String x a ++ b) with (String x (a ++ b)). cbn [spaceless].
  now rewrite IH, andb_assoc.
Qed.

Lemma skip_space_core (core x : string) :
  spaceless core = true -> core <> "" ->
  PyNum.skip_space (core ++ x) = core ++ x.
Proof.
  destruct core as [|c core]; [congruence|]. intros H _.
  change (String c core ++ x) with (String c (core ++ x)).
  cbn [spaceless PyNum.skip_space] in *.
  apply andb_prop in H as [Hc _]. apply negb_true_iff in Hc.
  destruct (PyNum.isspace c) eqn:E; [|reflexivity].
  apply num_space_is_space in E. congruence.
Qed.

(** Stripping takes the white space around a text without white space
    away, and takes nothing else. *)
Lemma strip_space_padded (lpad core rpad : string) :
  Literal.blank lpad = true -> Literal.blank rpad = true ->
  spaceless core = true -> core <> "" ->
  PyNum.strip_space (lpad ++ core ++ rpad) = core.
Proof.
  intros Hl Hr Hc Hne. unfold PyNum.strip_space.
  rewrite (skip_space_blank _ _ Hl), (skip_space_core _ _ Hc Hne).
  rewrite rev_append, skip_space_blank by now rewrite blank_rev.
  rewrite skip_space_spaceless.
  - apply rev_involutive.
  - unfold String.rev. now rewrite spaceless_rev_app, Hc.
Qed.

Lemma strip_space_split (s : string) :
  exists lpad rpad,
    s = lpad ++ PyNum.strip_space s ++ rpad
    /\ Literal.blank lpad = true /\ Literal.blank rpad = true.
Proof.
  unfold PyNum.strip_space.
  destruct (skip_space_split s) as (lpad & Hs & Hl).
  destruct (skip_space_split (String.rev (PyNum.skip_space s)))
    as (pad & Ht & Hpad).
  exists lpad, (String.rev pad). split; [|split; [exact Hl|]].
  - rewrite <- rev_append, <- Ht, rev_involutive. exact Hs.
  - now rewrite blank_rev.
Qed.

Lemma sign_split (s u : string) (neg : bool) :
  PyNum.sign s = (neg, u) ->
  exists sgn, s = sgn ++ u /\ Literal.sign sgn neg.
Proof.
  destruct s as [|c s]; [intros [= <- <-]; exists ""; split; constructor|].
  each_char c; cbn [PyNum.sign]; intros [= <- <-];
    first [ exists ""; split; [reflexivity | constructor]
          | exists "+"; split; [reflexivity | constructor]
          | exists "-"; split; [reflexivity | constructor] ].
Qed.

Lemma sign_joined (sgn u : string) (neg : bool) :
  Literal.sign sgn neg -> PyNum.sign u = (false, u) ->
  PyNum.sign (sgn ++ u) = (neg, u).
Proof. intros [] Hu; [exact Hu | reflexivity | reflexivity]. Qed.

Lemma digit_char (c : ascii) (d' d : Decimal.uint) :
  uint_of_char c (Some d') = Some d ->
  exists k, PyNum.digit_of c = Some k
            /\ uint_digits d = k :: uint_digits d'
            /\ PyStr.isspace c = false
            /\ PyNum.sign (String c "") = (false, String c "").
Proof.
  intros H. apply uint_of_char_spec in H.
  repeat (destruct H as [[-> ->]|H]; [eexists; repeat split; reflexivity|]).
  destruct H as [-> ->]. eexists; repeat split; reflexivity.
Qed.

Lemma digit_char_inv (c : ascii) (k : N) (d' : Decimal.uint) :
  PyNum.digit_of c = Some k ->
  exists d, uint_of_char c (Some d') = Some d
            /\ uint_digits d = k :: uint_digits d'.
Proof.
  each_char c; vm_compute; intros H; try discriminate H;
    injection H as <-; eexists; split; reflexivity.
Qed.

Lemma digit_run_digit (c : ascii) (k : N) (x : string) :
  PyNum.digit_of c = Some k ->
  PyNum.digit_run (String c x)
  = (k :: fst (PyNum.digit_run x), snd (PyNum.digit_run x)).
Proof.
  intros H. cbn [PyNum.digit_run]. rewrite H.
  now destruct (PyNum.digit_run x).
Qed.

Lemma digit_run_under (c : ascii) (k : N) (x : string) :
  PyNum.digit_of c = Some k ->
  PyNum.digit_run (String "_" (String c x)) = PyNum.digit_run (String c x).
Proof.
  intros H. rewrite (digit_run_digit c k x H).
  cbn [PyNum.digit_run]. rewrite H.
  change (PyNum.digit_of "_") with (@None N). cbn [Ascii.eqb Bool.eqb].
  now destruct (PyNum.digit_run x).
Qed.

Lemma digitpart_of_run (c : ascii) (k : N) (x : string) :
  PyNum.digit_of c = Some k ->
  PyNum.digitpart (String c x)
  = Some (PyNum.digit_run (String c x)).
Proof.
  intros H. rewrite (digit_run_digit c k x H). cbn [PyNum.digitpart].
  rewrite H. now destruct (PyNum.digit_run x).
Qed.

Lemma digitpart_head (body : string) (d : Decimal.uint) :
  Literal.digitpart body d ->
  exists c k x, body = String c x /\ PyNum.digit_of c = Some k.
Proof.
  intros [c d0 H|c b d' d0 _ H|c b d' d0 _ H];
    apply digit_char in H as (k & Hk & _); eauto.
Qed.

(** The parser reads a digitpart to its end, whatever follows that does
    not go on with a digit. *)
Lemma digit_run_digitpart (body : string) (d : Decimal.uint) (tail : string) :
  Literal.digitpart body d ->
  PyNum.digit_run tail = ([], tail) ->
  PyNum.digit_run (body ++ tail) = (uint_digits d, tail).
Proof.
  intros Hd Htail. induction Hd as [c d H|c b d' d Hb IH H|c b d' d Hb IH H];
    apply digit_char in H as (k & Hk & -> & _).
  - change (String c "" ++ tail) with (String c tail).
    now rewrite (digit_run_digit c k tail Hk), Htail.
  - change (String c b ++ tail) with (String c (b ++ tail)).
    now rewrite (digit_run_digit c k _ Hk), IH.
  - change (String c (String "_" b) ++ tail)
      with (String c (String "_" (b ++ tail))).
    rewrite (digit_run_digit c k _ Hk).
    destruct (digitpart_head b d' Hb) as (c2 & k2 & x & -> & Hk2).
    change (String c2 x ++ tail) with (String c2 (x ++ tail)) in *.
    now rewrite (digit_run_under c2 k2 _ Hk2), IH.
Qed.

Lemma digitpart_digitpart (body : string) (d : Decimal.uint) (tail : string) :
  Literal.digitpart body d ->
  PyNum.digit_run tail = ([], tail) ->
  PyNum.digitpart (body ++ tail) = Some (uint_digits d, tail).
Proof.
  intros Hd Htail.
  destruct (digitpart_head body d Hd) as (c & k & x & -> & Hk).
  change (String c x ++ tail) with (String c (x ++ tail)).
  rewrite (digitpart_of_run c k _ Hk).
  change (String c (x ++ tail)) with (String c x ++ tail).
  now rewrite (digit_run_digitpart _ d tail Hd Htail).
Qed.

(** What the parser has read as digits is a digitpart, or nothing. *)
Lemma digit_run_sound (n : nat) (s : string) (vals : list N) (r : string) :
  (String.length s <= n)%nat ->
  PyNum.digit_run s = (vals, r) ->
  (vals = [] /\ r = s)
  \/ exists body d,
       Literal.digitpart body d /\ vals = uint_digits d
       /\ (s = body ++ r \/ s = String "_" (body ++ r)).
Proof.
  revert s vals r. induction n as [|n IH]; intros s vals r Hlen Hrun.
  - destruct s; [|simpl in Hlen; lia]. injection Hrun as <- <-. now left.
  - destruct s as [|c s]; [injection Hrun as <- <-; now left|].
    cbn [String.length] in Hlen.
    assert (Hstep : forall c s vals r k,
               (String.length s <= n)%nat ->
               PyNum.digit_of c = Some k ->
               PyNum.digit_run (String c s) = (vals, r) ->
               exists body d,
                 Literal.digitpart body d /\ vals = uint_digits d
                 /\ String c s = body ++ r).
    { clear c s vals r Hlen Hrun. intros c s vals r k Hlen Hk Hrun.
      rewrite (digit_run_digit c k s Hk) in Hrun.
      destruct (PyNum.digit_run s) as [vs r'] eqn:E.
      cbn [fst snd] in Hrun. injection Hrun as <- <-.
      destruct (IH s vs r' Hlen E) as [[-> ->] | (b & d' & Hb & -> & Hs)].
      - destruct (digit_char_inv c k Decimal.Nil Hk) as (d & Hd & Hv).
        exists (String c ""), d. split; [now constructor|].
        split; [now rewrite Hv | reflexivity].
      - destruct (digit_char_inv c k d' Hk) as (d & Hd & Hv).
        destruct Hs as [-> | ->].
        + exists (String c b), d.
          split; [now apply Literal.digit_then with d'|].
          split; [now rewrite Hv | reflexivity].
        + exists (String c (String "_" b)), d.
          split; [now apply Literal.digit_under with d'|].
          split; [now rewrite Hv | reflexivity]. }
    destruct (PyNum.digit_of c) as [k|] eqn:Hk.
    + right. destruct (Hstep c s vals r k ltac:(lia) Hk Hrun)
        as (body & d & Hb & Hv & Hs).
      exists body, d. auto.
    + cbn [PyNum.digit_run] in Hrun. rewrite Hk in Hrun.
      destruct (Ascii.eqb_spec c "_") as [->|_];
        [|injection Hrun as <- <-; now left].
      destruct s as [|c2 s2]; [injection Hrun as <- <-; now left|].
      destruct (PyNum.digit_of c2) as [k2|] eqn:Hk2;
        [|injection Hrun as <- <-; now left].
      right. cbn [String.length] in Hlen.
      assert (Hrun2 : PyNum.digit_run (String c2 s2) = (vals, r)).
      { rewrite (digit_run_digit c2 k2 s2 Hk2).
        destruct (PyNum.digit_run s2). exact Hrun. }
      destruct (Hstep c2 s2 vals r k2 ltac:(lia) Hk2 Hrun2)
        as (body & d & Hb & Hv & Hs).
      exists body, d. split; [exact Hb|]. split; [exact Hv|].
      right. now rewrite Hs.
Qed.

Lemma digitpart_sound (s : string) (vals : list N) (r : string) :
  PyNum.digitpart s = Some (vals, r) ->
  exists body d,
    s = body ++ r /\ Literal.digitpart body d /\ vals = uint_digits d.
Proof.
  destruct s as [|c s]; [discriminate|]. cbn [PyNum.digitpart].
  destruct (PyNum.digit_of c) as [k|] eqn:Hk; [|discriminate].
  destruct (PyNum.digit_run s) as [vs r'] eqn:E. intros [= <- <-].
  destruct (digit_run_sound (String.length s) s vs r' (le_n _) E)
    as [[-> ->] | (b & d' & Hb & -> & Hs)].
  - destruct (digit_char_inv c k Decimal.Nil Hk) as (d & Hd & Hv).
    exists (String c ""), d. split; [reflexivity|]. split; [now constructor|].
    now rewrite Hv.
  - destruct (digit_char_inv c k d' Hk) as (d & Hd & Hv).
    destruct Hs as [-> | ->].
    + exists (String c b), d. split; [reflexivity|].
      split; [now apply Literal.digit_then with d' | now rewrite Hv].
    + exists (String c (String "_" b)), d. split; [reflexivity|].
      split; [now apply Literal.digit_under with d' | now rewrite Hv].
Qed.

Lemma digitpart_plain (body : string) (d : Decimal.uint) :
  Literal.digitpart body d ->
  spaceless body = true /\ body <> ""
  /\ PyNum.sign body = (false, body).
Proof.
  intros Hd. induction Hd as [c d H|c b d' d Hb IH H|c b d' d Hb IH H];
    apply digit_char in H as (k & _ & _ & Hsp & Hsg);
    cbn [spaceless]; rewrite Hsp; cbn [negb andb].
  - repeat split; [discriminate | exact Hsg].
  - destruct IH as (-> & _ & _). repeat split; [discriminate|].
    revert Hsg. clear. each_char c; cbn [PyNum.sign]; congruence.
  - destruct IH as (-> & _ & _). repeat split; [discriminate|].
    revert Hsg. clear. each_char c; cbn [PyNum.sign]; congruence.
Qed.

Lemma length_digits (d : Decimal.uint) :
  List.length (uint_digits d) = Decimal.nb_digits d.
Proof. induction d; simpl; congruence. Qed.

Lemma sign_spaceless (sgn : string) (neg : bool) :
  Literal.sign sgn neg -> spaceless sgn = true.
Proof. now intros []. Qed.

Lemma append_nonempty (a b : string) : b <> "" -> a ++ b <> "".
Proof. destruct a; [trivial | discriminate]. Qed.

Lemma decimal_value (d : Decimal.uint) :
  Z.of_N (PyNum.decimal (uint_digits d)) = Literal.value d.
Proof. apply decimal_uint. Qed.

Lemma run_stops_at_end : PyNum.digit_run "" = ([], "").
Proof. reflexivity. Qed.

(** [int] reads every integer literal of at most 4300 digits as its
    value. *)
Lemma int_literal_complete (s : string) (d : Decimal.uint) (z : Z) :
  Literal.integer s d z ->
  (Decimal.nb_digits d <= PyNum.int_max_str_digits)%nat ->
  PyNum.int_literal s = Some z.
Proof.
  intros [lpad sgn neg body d0 rpad Hl Hs Hb Hr] Hlen.
  destruct (digitpart_plain body d0 Hb) as (Hsp & Hne & Hsg).
  unfold PyNum.int_literal.
  rewrite <- (append_assoc sgn body rpad).
  rewrite (strip_space_padded lpad (sgn ++ body) rpad Hl Hr).
  - rewrite (sign_joined sgn body neg Hs Hsg).
    pose proof (digitpart_digitpart body d0 "" Hb run_stops_at_end) as E.
    rewrite append_empty in E. rewrite E, length_digits.
    apply Nat.leb_le in Hlen. rewrite Hlen, decimal_value.
    now destruct neg.
  - now rewrite spaceless_append, (sign_spaceless sgn neg Hs), Hsp.
  - now apply append_nonempty.
Qed.

(** [int] reads nothing else. *)
Lemma int_literal_sound (s : string) (z : Z) :
  PyNum.int_literal s = Some z ->
  exists d, Literal.integer s d z
            /\ (Decimal.nb_digits d <= PyNum.int_max_str_digits)%nat.
Proof.
  unfold PyNum.int_literal.
  destruct (strip_space_split s) as (lpad & rpad & Hs & Hl & Hr).
  destruct (PyNum.sign (PyNum.strip_space s)) as [neg u] eqn:Hsign.
  apply sign_split in Hsign as (sgn & Hu & Hsgn).
  destruct (PyNum.digitpart u) as [[ds [|c r]]|] eqn:Hd; try discriminate.
  apply digitpart_sound in Hd as (body & d & Hbody & Hb & ->).
  rewrite append_empty in Hbody. subst u.
  rewrite length_digits, decimal_value.
  destruct (Nat.leb_spec (Decimal.nb_digits d) PyNum.int_max_str_digits)
    as [Hlen|]; [|discriminate].
  intros [= <-]. exists d. split; [|exact Hlen].
  rewrite Hs, Hu, append_assoc.
  exact (Literal.integer_intro lpad sgn neg body d rpad Hl Hsgn Hb Hr).
Qed.

Lemma uint_digits_revapp (d d' : Decimal.uint) :
  uint_digits (Decimal.revapp d d')
  = (List.rev (uint_digits d) ++ uint_digits d')%list.
Proof.
  revert d'. induction d; intros d'; cbn [Decimal.revapp uint_digits List.rev];
    [reflexivity|..]; rewrite IHd; cbn [uint_digits];
    now rewrite <- List.app_assoc.
Qed.

Lemma uint_digits_app (ip fp : Decimal.uint) :
  uint_digits (Decimal.app ip fp)
  = (uint_digits ip ++ uint_digits fp)%list.
Proof.
  unfold Decimal.app, Decimal.rev. rewrite !uint_digits_revapp.
  cbn [uint_digits]. now rewrite List.app_nil_r, List.rev_involutive.
Qed.

Lemma decimal_N (d : Decimal.uint) :
  PyNum.decimal (uint_digits d) = N.of_nat (Nat.of_uint d).
Proof.
  unfold PyNum.decimal, Nat.of_uint.
  change 0%nat with (N.to_nat 0).
  rewrite <- (decimal_uint_acc d 0). now rewrite N2Nat.id.
Qed.

Lemma fold_lower (c : ascii) : Spec.fold_case c = PyNum.lower_char c.
Proof. each_char c; reflexivity. Qed.

Lemma equal_nocase_lower (a b : string) :
  Literal.equal_nocase a b = String.eqb (PyNum.lower a) (PyNum.lower b).
Proof.
  revert b. induction a as [|x a IH]; intros [|y b]; try reflexivity.
  cbn [Literal.equal_nocase PyNum.lower String.eqb]. unfold Spec.same_letter.
  rewrite IH, !fold_lower. now destruct (Ascii.eqb _ _).
Qed.

Lemma lower_space (c : ascii) :
  PyStr.isspace (PyNum.lower_char c) = PyStr.isspace c.
Proof. each_char c; reflexivity. Qed.

Lemma lower_spaceless (s : string) : spaceless (PyNum.lower s) = spaceless s.
Proof.
  induction s as [|c s IH]; [reflexivity|].
  cbn [PyNum.lower spaceless]. now rewrite lower_space, IH.
Qed.

Lemma lower_letter (c : ascii) (x : string) :
  PyNum.lower_char c = "i"%char \/ PyNum.lower_char c = "n"%char ->
  PyNum.sign (String c x) = (false, String c x).
Proof.
  each_char c; intros [H|H]; vm_compute in H; try discriminate H;
    reflexivity.
Qed.

(** A name of infinity or of a NaN holds no white space and no sign. *)
Lemma name_plain (name lit : string) :
  PyNum.lower name = lit ->
  lit = "inf" \/ lit = "infinity" \/ lit = "nan" ->
  spaceless name = true /\ name <> ""
  /\ PyNum.sign name = (false, name).
Proof.
  intros Hname Hlit. split; [|split].
  - rewrite <- lower_spaceless, Hname.
    now destruct Hlit as [->|[->| ->]].
  - intros ->. cbn in Hname. subst lit.
    now destruct Hlit as [H|[H|H]].
  - destruct name as [|c x].
    + cbn in Hname. subst lit. now destruct Hlit as [H|[H|H]].
    + apply lower_letter. cbn [PyNum.lower] in Hname.
      destruct Hlit as [->|[->| ->]]; injection Hname as Hc _; auto.
Qed.

Lemma head_plain (c : ascii) (x : string) :
  PyNum.digit_of c <> None \/ c = "."%char ->
  PyNum.sign (String c x) = (false, String c x)
  /\ String.eqb (PyNum.lower (String c x)) "inf" = false
  /\ String.eqb (PyNum.lower (String c x)) "infinity" = false
  /\ String.eqb (PyNum.lower (String c x)) "nan" = false.
Proof.
  each_char c; intros [H|H]; try (exfalso; apply H; reflexivity);
    try discriminate H; repeat split; reflexivity.
Qed.

Lemma number_head (num : string) (ip fp : Decimal.uint) :
  Literal.number num ip fp ->
  exists c x, num = String c x
              /\ (PyNum.digit_of c <> None \/ c = "."%char).
Proof.
  intros [b i Hb|b i Hb|bi i bf f Hb _|bf f _];
    try (destruct (digitpart_head _ _ Hb) as (c & k & x & -> & Hk)).
  - exists c, x. split; [reflexivity | left; congruence].
  - exists c, (x ++ "."). split; [reflexivity | left; congruence].
  - exists c, (x ++ "." ++ bf). split; [reflexivity | left; congruence].
  - exists "."%char, bf. split; [reflexivity | now right].
Qed.

Lemma number_spaceless (num : string) (ip fp : Decimal.uint) :
  Literal.number num ip fp -> spaceless num = true.
Proof.
  intros [b i Hb|b i Hb|bi i bf f Hb Hf|bf f Hf];
    rewrite ?spaceless_append;
    repeat match goal with
           | H : Literal.digitpart _ _ |- _ =>
               apply digitpart_plain in H as (-> & _ & _)
           end; reflexivity.
Qed.

Lemma number_nonempty (num : string) (ip fp : Decimal.uint) :
  Literal.number num ip fp -> num <> "".
Proof.
  intros H. destruct (number_head num ip fp H) as (c & x & -> & _).
  discriminate.
Qed.

Lemma exponent_head (ex : string) (e : Z) :
  Literal.exponent ex e ->
  ex = "" \/ (exists x, ex = String "e" x) \/ (exists x, ex = String "E" x).
Proof.
  intros [|mark sgn neg body d [->| ->] _ _]; [now left|..];
    right; [left|right]; now exists (sgn ++ body).
Qed.

Lemma exponent_spaceless (ex : string) (e : Z) :
  Literal.exponent ex e -> spaceless ex = true.
Proof.
  intros [|mark sgn neg body d Hm Hs Hb]; [reflexivity|].
  rewrite !spaceless_append, (sign_spaceless sgn neg Hs).
  apply digitpart_plain in Hb as (-> & _ & _).
  now destruct Hm as [->| ->].
Qed.

Lemma not_dot {T : Type} (c : ascii) (A B : T) :
  c <> "."%char ->
  match c with
  | "."%char => A
  | _ => B
  end = B.
Proof.
  intros H. each_char c; try reflexivity. now destruct H.
Qed.

(** The parser reads a number up to an exponent or to the end. *)
Lemma number_complete (num : string) (ip fp : Decimal.uint) (ex : string) :
  Literal.number num ip fp ->
  ex = "" \/ (exists x, ex = String "e" x) \/ (exists x, ex = String "E" x) ->
  PyNum.number (num ++ ex) = Some (uint_digits ip, uint_digits fp, ex).
Proof.
  intros Hnum Hex.
  assert (Hrun : PyNum.digit_run ex = ([], ex))
    by (destruct Hex as [->|[[x ->]|[x ->]]]; reflexivity).
  assert (Hnone : PyNum.digitpart ex = None)
    by (destruct Hex as [->|[[x ->]|[x ->]]]; reflexivity).
  unfold PyNum.number.
  destruct Hnum as [b i Hb|b i Hb|bi i bf f Hb Hf|bf f Hf].
  - rewrite (digitpart_digitpart b i ex Hb Hrun).
    destruct Hex as [->|[[x ->]|[x ->]]]; reflexivity.
  - rewrite append_assoc.
    rewrite (digitpart_digitpart b i ("." ++ ex) Hb eq_refl).
    change ("." ++ ex) with (String "." ex). cbv iota beta.
    now rewrite Hnone.
  - rewrite !append_assoc.
    rewrite (digitpart_digitpart bi i ("." ++ bf ++ ex) Hb eq_refl).
    change ("." ++ bf ++ ex) with (String "." (bf ++ ex)). cbv iota beta.
    now rewrite (digitpart_digitpart bf f ex Hf Hrun).
  - change (("." ++ bf) ++ ex) with (String "." (bf ++ ex)).
    change (PyNum.digitpart (String "." (bf ++ ex))) with
      (@None (list N * string)). cbv iota beta.
    now rewrite (digitpart_digitpart bf f ex Hf Hrun).
Qed.

Lemma number_sound (u : string) (ipv fpv : list N) (r : string) :
  PyNum.number u = Some (ipv, fpv, r) ->
  exists num ip fp,
    u = num ++ r /\ Literal.number num ip fp
    /\ ipv = uint_digits ip /\ fpv = uint_digits fp.
Proof.
  unfold PyNum.number.
  destruct (PyNum.digitpart u) as [[ipv' r1]|] eqn:E1.
  - apply digitpart_sound in E1 as (b1 & ip & -> & Hb1 & ->).
    destruct r1 as [|c r'].
    + intros [= <- <- <-]. exists b1, ip, Decimal.Nil.
      repeat split. now constructor.
    + destruct (Ascii.eqb_spec c ".") as [->|Hc].
      * cbv iota beta.
        destruct (PyNum.digitpart r') as [[fpv' r2]|] eqn:E2.
        -- apply digitpart_sound in E2 as (b2 & fp & -> & Hb2 & ->).
           intros [= <- <- <-]. exists (b1 ++ "." ++ b2), ip, fp.
           split; [now rewrite !append_assoc|].
           split; [now constructor | split; reflexivity].
        -- intros [= <- <- <-]. exists (b1 ++ "."), ip, Decimal.Nil.
           split; [now rewrite append_assoc|].
           split; [now constructor | split; reflexivity].
      * cbv iota beta; rewrite (not_dot c _ _ Hc).
        intros [= <- <- <-]. exists b1, ip, Decimal.Nil.
        repeat split. now constructor.
  - destruct u as [|c r']; [discriminate|].
    destruct (Ascii.eqb_spec c ".") as [->|Hc].
    + cbv iota beta.
      destruct (PyNum.digitpart r') as [[fpv' r2]|] eqn:E2; [|discriminate].
      apply digitpart_sound in E2 as (b2 & fp & -> & Hb2 & ->).
      intros [= <- <- <-]. exists ("." ++ b2), Decimal.Nil, fp.
      split; [reflexivity|].
      split; [now constructor | split; reflexivity].
    + cbv iota beta; rewrite (not_dot c _ _ Hc). discriminate.
Qed.

Lemma exponent_marked (c : ascii) (s' : string) :
  PyNum.lower_char c = "e"%char ->
  PyNum.exponent (String c s')
  = let (neg, u) := PyNum.sign s' in
    match PyNum.digitpart u with
    | Some (ds, r) =>
        Some (if neg then - Z.of_N (PyNum.decimal ds)
              else Z.of_N (PyNum.decimal ds), r)%Z
    | None => None
    end.
Proof. intros H. cbn [PyNum.exponent]. now rewrite H. Qed.

Lemma exponent_complete (ex : string) (e : Z) :
  Literal.exponent ex e -> PyNum.exponent ex = Some (e, "").
Proof.
  intros [|mark sgn neg body d Hm Hs Hb]; [reflexivity|].
  destruct (digitpart_plain body d Hb) as (_ & _ & Hsg).
  pose proof (digitpart_digitpart body d "" Hb run_stops_at_end) as E.
  rewrite append_empty in E.
  destruct Hm as [->| ->];
    [change ("e" ++ sgn ++ body) with (String "e" (sgn ++ body))
    |change ("E" ++ sgn ++ body) with (String "E" (sgn ++ body))];
    rewrite exponent_marked by reflexivity;
    rewrite (sign_joined sgn body neg Hs Hsg), E, decimal_value;
    reflexivity.
Qed.

Lemma lower_e (c : ascii) :
  Ascii.eqb (PyNum.lower_char c) "e" = true ->
  String c "" = "e" \/ String c "" = "E".
Proof.
  each_char c; vm_compute; intros H; try discriminate H; auto.
Qed.

Lemma exponent_sound (r : string) (e : Z) :
  PyNum.exponent r = Some (e, "") -> Literal.exponent r e.
Proof.
  destruct r as [|c s']; [intros [= <-]; constructor|].
  cbn [PyNum.exponent].
  destruct (Ascii.eqb (PyNum.lower_char c) "e") eqn:Hc; [|discriminate].
  apply lower_e in Hc.
  destruct (PyNum.sign s') as [neg u] eqn:Hsign.
  apply sign_split in Hsign as (sgn & -> & Hsgn).
  destruct (PyNum.digitpart u) as [[ds r0]|] eqn:Hd; [|discriminate].
  apply digitpart_sound in Hd as (body & d & -> & Hb & ->).
  rewrite decimal_value. intros [= <- ->]. rewrite append_empty.
  exact (Literal.exponent_some (String c "") sgn neg body d Hc Hsgn Hb).
Qed.

(** [float] reads every float literal as the number it names. *)
Lemma float_literal_complete (s : string) (x : PyNum.float) :
  Literal.float s x -> PyNum.float_literal s = Some x.
Proof.
  intros [lpad sgn neg num ip fp ex e rpad Hl Hs Hn He Hr
         |lpad sgn neg name rpad Hl Hs Hname Hr
         |lpad sgn neg name rpad Hl Hs Hname Hr].
  - destruct (number_head num ip fp Hn) as (c & x0 & Hnum & Hc).
    destruct (head_plain c (x0 ++ ex) Hc) as (Hsg & Hinf & Hinfinity & Hnan).
    assert (Hu : num ++ ex = String c (x0 ++ ex)) by now rewrite Hnum.
    rewrite <- Hu in Hsg, Hinf, Hinfinity, Hnan.
    unfold PyNum.float_literal.
    rewrite <- (append_assoc num ex rpad).
    rewrite <- (append_assoc sgn (num ++ ex) rpad).
    rewrite (strip_space_padded lpad (sgn ++ num ++ ex) rpad Hl Hr).
    + rewrite (sign_joined sgn (num ++ ex) neg Hs Hsg).
      rewrite Hinf, Hinfinity, Hnan. cbn [orb].
      rewrite (number_complete num ip fp ex Hn (exponent_head ex e He)).
      rewrite (exponent_complete ex e He).
      now rewrite <- uint_digits_app, decimal_N, length_digits.
    + rewrite !spaceless_append, (sign_spaceless sgn neg Hs).
      now rewrite (number_spaceless num ip fp Hn),
        (exponent_spaceless ex e He).
    + apply append_nonempty. rewrite Hu. discriminate.
  - rewrite !equal_nocase_lower in Hname.
    assert (Hlow : PyNum.lower name = "inf" \/ PyNum.lower name = "infinity")
      by (destruct Hname as [H|H]; apply String.eqb_eq in H; auto).
    assert (Hlit : exists lit, PyNum.lower name = lit
                            /\ (lit = "inf" \/ lit = "infinity" \/ lit = "nan"))
      by (destruct Hlow as [H|H]; eexists; (split; [exact H|]); auto).
    destruct Hlit as (lit & Hlit & Hcase).
    destruct (name_plain name lit Hlit Hcase) as (Hsp & Hne & Hsg).
    unfold PyNum.float_literal.
    rewrite <- (append_assoc sgn name rpad).
    rewrite (strip_space_padded lpad (sgn ++ name) rpad Hl Hr).
    + rewrite (sign_joined sgn name neg Hs Hsg).
      now destruct Hlow as [-> | ->].
    + now rewrite spaceless_append, (sign_spaceless sgn neg Hs), Hsp.
    + now apply append_nonempty.
  - rewrite equal_nocase_lower in Hname. apply String.eqb_eq in Hname.
    change (PyNum.lower "nan") with "nan" in Hname.
    destruct (name_plain name "nan" Hname) as (Hsp & Hne & Hsg); [auto|].
    unfold PyNum.float_literal.
    rewrite <- (append_assoc sgn name rpad).
    rewrite (strip_space_padded lpad (sgn ++ name) rpad Hl Hr).
    + rewrite (sign_joined sgn name neg Hs Hsg). now rewrite Hname.
    + now rewrite spaceless_append, (sign_spaceless sgn neg Hs), Hsp.
    + now apply append_nonempty.
Qed.

(** [float] reads nothing else. *)
Lemma float_literal_sound (s : string) (x : PyNum.float) :
  PyNum.float_literal s = Some x -> Literal.float s x.
Proof.
  unfold PyNum.float_literal.
  destruct (strip_space_split s) as (lpad & rpad & Hs & Hl & Hr).
  destruct (PyNum.sign (PyNum.strip_space s)) as [neg u] eqn:Hsign.
  apply sign_split in Hsign as (sgn & Hu & Hsgn).
  rewrite Hu, append_assoc in Hs.
  destruct (String.eqb (PyNum.lower u) "inf"
            || String.eqb (PyNum.lower u) "infinity") eqn:Hinf.
  - intros [= <-]. rewrite Hs. apply Literal.float_inf; auto.
    rewrite !equal_nocase_lower. apply orb_prop in Hinf. exact Hinf.
  - destruct (String.eqb (PyNum.lower u) "nan") eqn:Hnan.
    + intros [= <-]. rewrite Hs. apply Literal.float_nan; auto.
      rewrite equal_nocase_lower. exact Hnan.
    + destruct (PyNum.number u) as [[[ipv fpv] r]|] eqn:Hn; [|discriminate].
      destruct (PyNum.exponent r) as [[e [|c r0]]|] eqn:He; try discriminate.
      apply number_sound in Hn as (num & ip & fp & Hnum & Hnumber & -> & ->).
      apply exponent_sound in He.
      intros [= <-]. rewrite Hs, Hnum, append_assoc.
      rewrite <- uint_digits_app, decimal_N, length_digits.
      now apply Literal.float_number.
Qed.

Lemma zeros_digitpart (n : nat) :
  Literal.digitpart (zeros n "7") (zero_digits n (Decimal.D7 Decimal.Nil)).
Proof.
  induction n as [|n IH]; [now constructor|].
  cbn [zeros zero_digits]. now apply Literal.digit_then with (1 := IH).
Qed.

Lemma zeros_value (n : nat) (d : Decimal.uint) :
  Nat.of_uint (zero_digits n d) = Nat.of_uint d.
Proof.
  unfold Nat.of_uint. induction n as [|n IH]; [reflexivity|].
  cbn [zero_digits Nat.of_uint_acc]. exact IH.
Qed.

Lemma zeros_length (n : nat) (d : Decimal.uint) :
  Decimal.nb_digits (zero_digits n d) = (n + Decimal.nb_digits d)%nat.
Proof. induction n as [|n IH]; [reflexivity|]. cbn. now rewrite IH. Qed.

(** C8.  [parse_credits] and [parse_ects] return on every string and do
    not raise.  [parse_credits] returns the value of the text when it is
    an integer literal (white space, a sign, digits with single
    underscores between them, white space) of at most 4300 digits, and 0
    when the text is no integer literal or one of more digits;
    [parse_ects] returns the float the text names when it is a float
    literal and 0.0 when it is none. *)
Theorem parse_credits_ects_literals (s : string) :
  (exists n x, parse_credits s = Ok n /\ parse_ects s = Ok x)
  /\ (forall d z,
        Literal.integer s d z ->
        (Decimal.nb_digits d <= PyNum.int_max_str_digits)%nat ->
        parse_credits s = Ok z)
  /\ ((forall d z,
         Literal.integer s d z ->
         (PyNum.int_max_str_digits < Decimal.nb_digits d)%nat) ->
      parse_credits s = Ok 0%Z)
  /\ (forall x, Literal.float s x -> parse_ects s = Ok x)
  /\ ((forall x, ~ Literal.float s x) -> parse_ects s = Ok PyNum.zero).
Proof.
  rewrite parse_credits_value, parse_ects_value. repeat split.
  - eauto.
  - intros d z Hint Hlen.
    now rewrite (int_literal_complete s d z Hint Hlen).
  - intros Hlong. destruct (PyNum.int_literal s) as [z|] eqn:E; [|reflexivity].
    apply int_literal_sound in E as (d & Hint & Hlen).
    specialize (Hlong d z Hint). lia.
  - intros x Hx. now rewrite (float_literal_complete s x Hx).
  - intros Hnone. destruct (PyNum.float_literal s) as [x|] eqn:E; [|reflexivity].
    apply float_literal_sound in E. now destruct (Hnone x).
Qed.

Lemma parse_credits_ects_literals_witness :
  Literal.integer " +1_0 " (Decimal.D1 (Decimal.D0 Decimal.Nil)) 10
  /\ parse_credits " +1_0 " = Ok 10%Z.
Proof.
  assert (H : Literal.integer " +1_0 "
                (Decimal.D1 (Decimal.D0 Decimal.Nil)) 10).
  { apply (Literal.integer_intro " " "+" false "1_0"
             (Decimal.D1 (Decimal.D0 Decimal.Nil)) " ");
      [reflexivity | constructor | | reflexivity].
    apply Literal.digit_under with (Decimal.D0 Decimal.Nil);
      [now constructor | reflexivity]. }
  split; [exact H|].
  apply (proj1 (proj2 (parse_credits_ects_literals " +1_0 "))
           (Decimal.D1 (Decimal.D0 Decimal.Nil)) 10%Z H).
  unfold PyNum.int_max_str_digits. cbn [Decimal.nb_digits]. lia.
Defined.

(** The text of 4300 zeros and a seven is an integer literal of value 7,
    and [parse_credits] returns 0 on it. *)
Lemma long_integer_literal_reads_zero :
  Literal.integer long_seven (zero_digits 4300 (Decimal.D7 Decimal.Nil)) 7
  /\ parse_credits long_seven = Ok 0%Z.
Proof.
  split; [|vm_compute; reflexivity].
  pose proof (Literal.integer_intro "" "" false long_seven
                (zero_digits 4300 (Decimal.D7 Decimal.Nil)) ""
                eq_refl Literal.sign_none (zeros_digitpart 4300) eq_refl)
    as H.
  unfold Literal.value, Literal.signed in H. rewrite zeros_value in H.
  change ("" ++ "" ++ long_seven ++ "") with (long_seven ++ "") in H.
  rewrite append_empty in H. exact H.
Qed.

End Literals.
